(** * Pet-adoption backend: authentication, user manager and shelter view

    A shallow embedding of

      - [apps/users/authentication.py]  (class [JWTAuthentication]),
      - [apps/users/models.py]          (manager [CustomUserManager] and the
                                         tables [BaseUser], [Shelter], [JWT],
                                         [JWTBlacklist]),
      - [apps/users/infrastructure/views/shelter.py] (class [ShelterAPIView]),
      - [settings/environments/base.py] (the [SIMPLE_JWT] block),

    followed by the properties of the specification proved about it.

    Python exceptions are values of [Exception] carried by the [Result]
    monad; the relational store is a record of finite maps, one per table,
    keyed by primary key; dictionaries are [gmap]s with string keys. *)

From Stdlib Require Import ZArith Strings.Byte.
From stdpp Require Import gmap strings list fin_maps.

(** ** Exceptions and the result monad *)

(** One entry of the list built by [get_validated_token]: the dictionary
    [{"token_type": ..., "message": ...}]. *)
Record TokenFailure := {
  failure_token_type : string;
  failure_message : string;
}.

(** The [detail] argument of [InvalidToken]: a text in [get_user], the list
    of collected failures in [get_validated_token]. *)
Inductive Detail :=
| DetailText (text : string)
| DetailMessages (messages : list TokenFailure).

(** The exceptions raised or caught by the embedded code. [code] is the
    keyword argument as the source passes it ([None] when it is left out). *)
Inductive Exception :=
| InvalidToken (code : option string) (detail : Detail)
| AuthenticationFailed (detail : string) (code : string)
| NotAuthenticated (code : option string) (detail : option string)
| PermissionDenied (code : option string) (detail : option string)
| KeyError (key : string)
| DoesNotExist
| IntegrityError (column : string)
| TypeError (message : string)
| ValidationError (message : string)
| ValueError (message : string).

Inductive Result (A : Type) :=
| Return (value : A)
| Raise (exc : Exception).

Arguments Return {A} value.
Arguments Raise {A} exc.

#[global] Instance Result_ret : MRet Result := fun A a => Return a.

#[global] Instance Result_bind : MBind Result := fun A B f m =>
  match m with
  | Return a => f a
  | Raise e => Raise e
  end.

(** [try: body  except <handled>: ...]: the handler receives the exception
    and re-raises the ones its [except] clause does not name. *)
Definition try_except {A} (body : Result A) (handler : Exception -> Result A)
  : Result A :=
  match body with
  | Return a => Return a
  | Raise e => handler e
  end.

(** ** Tokens ([rest_framework_simplejwt.tokens]) *)

(** A validated token wrapper: the class-level [token_type] and the decoded
    payload, a dictionary from claim names to claim values. *)
Record Token := {
  token_type : string;
  payload : gmap string string;
}.

(** [validated_token[key]] raises [KeyError] on a missing claim. *)
Definition Token_getitem (t : Token) (key : string) : Result string :=
  match payload t !! key with
  | Some v => Return v
  | None => Raise (KeyError key)
  end.

(** [validated_token.get(key)] is [None] on a missing claim. *)
Definition Token_get (t : Token) (key : string) : option string :=
  payload t !! key.

(** [TokenError]: the exception a token class raises when the raw token does
    not parse or verify; [args0] is [e.args[0]]. *)
Record TokenError := { args0 : string }.

(** A token class of [AUTH_TOKEN_CLASSES]: its [token_type] attribute and
    its constructor, which decodes and verifies the raw token (signature,
    expiry, type claim) and either yields the wrapper or raises
    [TokenError]. The constructor receives the raw token only. *)
Record TokenClass := {
  class_token_type : string;
  construct : list Byte.byte -> TokenError + Token;
}.

(** The part of [rest_framework_simplejwt.settings.api_settings] the
    authentication class reads. *)
Record ApiSettings := {
  AUTH_TOKEN_CLASSES : list TokenClass;
  USER_ID_CLAIM : string;
  CHECK_REVOKE_TOKEN : bool;
  REVOKE_TOKEN_CLAIM : string;
}.

(** Functions of Django and simplejwt the code calls, and the one constant
    of [apps.users.domain.constants] the view reads. *)
Class Externals := {
  (** [UserRoles.SHELTER.value] *)
  UserRoles_SHELTER : string;
  (** [rest_framework_simplejwt.utils.get_md5_hash_password] *)
  get_md5_hash_password : string -> string;
  (** [BaseUserManager.normalize_email]; [None] is the missing argument *)
  normalize_email : option string -> string;
  (** [django.contrib.auth.hashers.make_password], behind [set_password] *)
  make_password : option string -> string;
  (** [UUIDField.to_python] on a text: the UUID it spells, in the canonical
      form under which rows are keyed, or [None] when the text spells no
      UUID and the field raises [ValidationError] *)
  UUIDField_to_python : string -> option string;
}.

(** What one request draws from outside the store: the value [uuid4()]
    returns and the clock read by [auto_now_add]. *)
Record Draw := {
  uuid4 : string;
  now : Z;
}.

(** ** The store ([apps/users/models.py]) *)

Module Models.

(** Primary keys are UUIDs, kept in their textual form. *)
Abbreviation UUID := string (only parsing).

(** A [BaseUser] instance. [uuid] and [date_joined] are [None] on an
    instance that has not been saved yet. *)
Record BaseUser := {
  uuid : option UUID;
  email : string;
  password : string;
  is_active : bool;
  is_staff : bool;
  is_superuser : bool;
  last_login : option Z;
  date_joined : option Z;
}.

Record Shelter := {
  base_user : UUID;
  shelter_name : string;
  shelter_address : string;
  shelter_phone_number : string;
  shelter_responsible : string;
  shelter_logo : string;
}.

Record JWT := {
  jwt_uuid : UUID;
  content_type : Z;
  user_uuid : UUID;
  jti : string;
  token : string;
  expires_at : Z;
  jwt_date_joined : Z;
}.

Record JWTBlacklist := {
  token_id : UUID;
  blacklist_date_joined : Z;
}.

(** One finite map per table, keyed by primary key ([base_user.uuid],
    [shelter.base_user], [jwt.jwt_uuid], [jwt_blacklist.token_id]). *)
Record Database := {
  base_user_table : gmap UUID BaseUser;
  shelter_table : gmap UUID Shelter;
  jwt_table : gmap UUID JWT;
  jwt_blacklist_table : gmap UUID JWTBlacklist;
}.

Definition set_base_user_table (db : Database)
    (t : gmap UUID BaseUser) : Database :=
  {| base_user_table := t;
     shelter_table := shelter_table db;
     jwt_table := jwt_table db;
     jwt_blacklist_table := jwt_blacklist_table db |}.

Definition set_shelter_table (db : Database)
    (t : gmap UUID Shelter) : Database :=
  {| base_user_table := base_user_table db;
     shelter_table := t;
     jwt_table := jwt_table db;
     jwt_blacklist_table := jwt_blacklist_table db |}.

Definition set_jwt_blacklist_table (db : Database)
    (t : gmap UUID JWTBlacklist) : Database :=
  {| base_user_table := base_user_table db;
     shelter_table := shelter_table db;
     jwt_table := jwt_table db;
     jwt_blacklist_table := t |}.

(** Code that reads and writes the store: the state after the call comes
    back with the outcome, also when the outcome is an exception. *)
Definition DB (A : Type) : Type := Database -> Result A * Database.

#[global] Instance DB_ret : MRet DB := fun A a db => (Return a, db).

#[global] Instance DB_bind : MBind DB := fun A B f m db =>
  match m db with
  | (Return a, db') => f a db'
  | (Raise e, db') => (Raise e, db')
  end.

(** A pure outcome inside store-passing code. *)
Definition lift {A} (r : Result A) : DB A := fun db => (r, db).

(** [BaseUser.objects.get(uuid=...)]: the column is a [UUIDField], which
    first converts the value it is given. A text that spells no UUID is a
    [ValidationError]; one that does is looked up under the UUID it spells,
    whatever its spelling, and a missing row is [DoesNotExist]. *)
Definition objects_get `{Externals} (db : Database) (user_id : string)
    : Result BaseUser :=
  match UUIDField_to_python user_id with
  | None =>
      Raise (ValidationError ("“" +:+ user_id +:+ "” is not a valid UUID."))
  | Some key =>
      match base_user_table db !! key with
      | Some user => Return user
      | None => Raise DoesNotExist
      end
  end.

(** The [unique=True] constraint on [BaseUser.email]: some row already
    carries the address. *)
Definition email_taken (db : Database) (address : string) : bool :=
  bool_decide (map_Exists (fun _ row => email row = address)
                 (base_user_table db)).

(** Values a keyword argument of the model constructor can carry. *)
Inductive FieldValue :=
| VBool (b : bool)
| VDateTime (t : Z)
| VNone.

(** The columns of [BaseUser] that [**extra_fields] can name: [uuid] and
    [email] are passed by the manager itself and [password] is a named
    parameter of its methods. *)
Definition BaseUser_columns : gset string :=
  {[ "is_active"; "is_staff"; "is_superuser"; "last_login"; "date_joined" ]}.

(** A boolean column takes the keyword argument when there is one and the
    field's declared [default] otherwise. *)
Definition bool_column (kwargs : gmap string FieldValue) (name : string)
    (default : bool) : Result bool :=
  match kwargs !! name with
  | None => Return default
  | Some (VBool b) => Return b
  | Some _ =>
      Raise (ValidationError (name +:+ " value must be either True or False."))
  end.

Definition datetime_column (kwargs : gmap string FieldValue) (name : string)
    : Result (option Z) :=
  match kwargs !! name with
  | None | Some VNone => Return None
  | Some (VDateTime t) => Return (Some t)
  | Some (VBool _) =>
      Raise (ValidationError (name +:+ " value has an invalid format."))
  end.

(** [self.model(uuid=uuid, email=..., **extra_fields)]: the constructor of
    [BaseUser]. A keyword that names no column is a [TypeError]; a column
    without keyword gets the default of its field declaration
    ([is_active], [is_staff] and [is_superuser] all declare
    [default=False]). *)
Definition BaseUser_init (uuid : option UUID) (email : string)
    (kwargs : gmap string FieldValue) : Result BaseUser :=
  if decide (dom kwargs ⊆ BaseUser_columns) then
    active ← bool_column kwargs "is_active" false;
    staff ← bool_column kwargs "is_staff" false;
    superuser ← bool_column kwargs "is_superuser" false;
    login ← datetime_column kwargs "last_login";
    joined ← datetime_column kwargs "date_joined";
    Return {| uuid := uuid; email := email; password := "";
              is_active := active; is_staff := staff;
              is_superuser := superuser;
              last_login := login; date_joined := joined |}
  else Raise (TypeError "BaseUser() got unexpected keyword arguments").

(** [user.set_password(raw)] stores the hash of the raw password. *)
Definition set_password `{Externals} (user : BaseUser)
    (raw_password : option string) : BaseUser :=
  {| uuid := uuid user; email := email user;
     password := make_password raw_password;
     is_active := is_active user; is_staff := is_staff user;
     is_superuser := is_superuser user;
     last_login := last_login user; date_joined := date_joined user |}.

(** [user.save()] on a new instance: a missing primary key is drawn from
    the field default [uuid4], [date_joined] is stamped ([auto_now_add]),
    and the row is inserted. The insertion violates a constraint, and
    leaves the table as it was, when the primary key or the email is
    already there. *)
Definition save (env : Draw) (user : BaseUser) : DB BaseUser := fun db =>
  let pk := default (uuid4 env) (uuid user) in
  if decide (is_Some (base_user_table db !! pk)) then
    (Raise (IntegrityError "uuid"), db)
  else if email_taken db (email user) then
    (Raise (IntegrityError "email"), db)
  else
    let row := {| uuid := Some pk; email := email user;
                  password := password user;
                  is_active := is_active user; is_staff := is_staff user;
                  is_superuser := is_superuser user;
                  last_login := last_login user;
                  date_joined := Some (now env) |} in
    (Return row, set_base_user_table db (<[pk := row]> (base_user_table db))).

(** The [unique=True] constraint on [Shelter.shelter_name]. *)
Definition shelter_name_taken (db : Database) (name : string) : bool :=
  bool_decide (map_Exists (fun _ row => shelter_name row = name)
                 (shelter_table db)).

(** [Shelter.objects.create(...)]: the row is keyed by its one-to-one
    reference to [base_user], which must name an existing row; the
    insertion leaves the table as it was when a constraint is violated. *)
Definition Shelter_create (row : Shelter) : DB Shelter := fun db =>
  if decide (is_Some (base_user_table db !! base_user row)) then
    if decide (is_Some (shelter_table db !! base_user row)) then
      (Raise (IntegrityError "base_user"), db)
    else if shelter_name_taken db (shelter_name row) then
      (Raise (IntegrityError "shelter_name"), db)
    else
      (Return row,
       set_shelter_table db (<[base_user row := row]> (shelter_table db)))
  else (Raise (IntegrityError "base_user"), db).

(** [JWTBlacklist.objects.create(token_id=...)]: the entry is keyed by its
    one-to-one reference to a [jwt] row, which must exist and must not be
    blacklisted already. *)
Definition JWTBlacklist_create (entry : JWTBlacklist) : DB JWTBlacklist :=
  fun db =>
    if decide (is_Some (jwt_table db !! token_id entry)) then
      if decide (is_Some (jwt_blacklist_table db !! token_id entry)) then
        (Raise (IntegrityError "token_id"), db)
      else
        (Return entry,
         set_jwt_blacklist_table db
           (<[token_id entry := entry]> (jwt_blacklist_table db)))
    else (Raise (IntegrityError "token_id"), db).

(** [dict.setdefault(key, value)] *)
Definition setdefault (key : string) (value : FieldValue)
    (d : gmap string FieldValue) : gmap string FieldValue :=
  match d !! key with
  | Some _ => d
  | None => <[key := value]> d
  end.

(** [dict.get(key) is not True] *)
Definition is_not_True (d : gmap string FieldValue) (key : string) : bool :=
  match d !! key with
  | Some (VBool true) => false
  | _ => true
  end.

Module CustomUserManager.

Definition _create_base_user `{Externals} (env : Draw)
    (uuid : option UUID) (email password : option string)
    (extra_fields : gmap string FieldValue) : DB BaseUser :=
  user ← lift (BaseUser_init uuid (normalize_email email) extra_fields);
  let user := set_password user password in
  save env user.

Definition create_base_user `{Externals} (env : Draw)
    (uuid : option UUID) (email password : option string)
    (extra_fields : gmap string FieldValue) : DB BaseUser :=
  let extra_fields := setdefault "is_staff" (VBool false) extra_fields in
  let extra_fields := setdefault "is_superuser" (VBool false) extra_fields in
  let extra_fields := setdefault "is_active" (VBool true) extra_fields in
  _create_base_user env uuid email password extra_fields.

Definition create_superuser `{Externals} (env : Draw)
    (uuid : option UUID) (email password : option string)
    (extra_fields : gmap string FieldValue) : DB BaseUser :=
  let extra_fields := setdefault "is_staff" (VBool true) extra_fields in
  let extra_fields := setdefault "is_superuser" (VBool true) extra_fields in
  let extra_fields := setdefault "is_active" (VBool true) extra_fields in
  if is_not_True extra_fields "is_staff" then
    lift (Raise (ValueError "Superuser must have is_staff=True."))
  else if is_not_True extra_fields "is_superuser" then
    lift (Raise (ValueError "Superuser must have is_superuser=True."))
  else if is_not_True extra_fields "is_active" then
    lift (Raise (ValueError "Active user must have is_active=True."))
  else _create_base_user env uuid email password extra_fields.

End CustomUserManager.

(** Two properties of the [base_user] table that the schema is meant to
    keep: every row sits under its own primary key, and no two rows share an
    email ([unique=True]). *)
Definition keys_match (db : Database) : Prop :=
  forall k row, base_user_table db !! k = Some row -> uuid row = Some k.

Definition emails_unique (db : Database) : Prop :=
  forall k1 k2 row1 row2,
    base_user_table db !! k1 = Some row1 ->
    base_user_table db !! k2 = Some row2 ->
    email row1 = email row2 -> k1 = k2.

(** The flag a boolean keyword leaves on the saved row: the keyword when it
    is passed, the fallback otherwise. *)
Definition flag_or (fallback : bool) (value : option FieldValue) : bool :=
  match value with
  | Some (VBool b) => b
  | _ => fallback
  end.

(** The test [is not True] on the keywords as [create_superuser] completes
    them: a keyword that is left out passes, one that is passed must be
    [True]. *)
Definition passes (value : option FieldValue) : bool :=
  match value with
  | None | Some (VBool true) => true
  | Some _ => false
  end.

End Models.

(** ** Authentication ([apps/users/authentication.py]) *)

Module Authentication.
Import Models.

(** The dictionary appended for a class whose constructor raised [e]. *)
Definition failure_entry (AuthToken : TokenClass) (e : TokenError)
    : TokenFailure :=
  {| failure_token_type := class_token_type AuthToken;
     failure_message := args0 e |}.

(** The [for] loop of [get_validated_token], with the list [messages]
    threaded through: the first class whose constructor returns ends the
    loop; a [TokenError] appends one dictionary and moves on; when the
    classes are exhausted [InvalidToken] is raised with what was
    collected. *)
Fixpoint get_validated_token_loop (classes : list TokenClass)
    (raw_token : list Byte.byte) (messages : list TokenFailure)
    : Result Token :=
  match classes with
  | [] =>
      Raise (InvalidToken (Some "authentication_failed")
               (DetailMessages messages))
  | AuthToken :: classes' =>
      match construct AuthToken raw_token with
      | inr validated => Return validated
      | inl e =>
          get_validated_token_loop classes' raw_token
            (messages ++ [failure_entry AuthToken e])
      end
  end.

Definition get_validated_token (api_settings : ApiSettings)
    (raw_token : list Byte.byte) : Result Token :=
  get_validated_token_loop (AUTH_TOKEN_CLASSES api_settings) raw_token [].

(** [get_user]: the identity claim, the lookup in [base_user], the
    [is_active] test and, when [CHECK_REVOKE_TOKEN] is set, the comparison
    of the revocation claim with the fingerprint of the stored password
    hash. *)
Definition get_user `{Externals} (api_settings : ApiSettings)
    (db : Database) (validated_token : Token) : Result BaseUser :=
  user_id ← try_except
    (Token_getitem validated_token (USER_ID_CLAIM api_settings))
    (fun e => match e with
              | KeyError _ =>
                  Raise (InvalidToken None (DetailText
                    "Token contained no recognizable user identification"))
              | _ => Raise e
              end);
  user ← try_except (objects_get db user_id)
    (fun e => match e with
              | DoesNotExist =>
                  Raise (AuthenticationFailed "User not found"
                           "user_not_found")
              | _ => Raise e
              end);
  if negb (is_active user) then
    Raise (AuthenticationFailed "User is inactive" "user_inactive")
  else
    if CHECK_REVOKE_TOKEN api_settings then
      if bool_decide
           (Token_get validated_token (REVOKE_TOKEN_CLAIM api_settings)
            ≠ Some (get_md5_hash_password (password user)))
      then
        Raise (AuthenticationFailed "The user's password has been changed."
                 "password_changed")
      else Return user
    else Return user.

(** The three rejections of [get_user] that carry a code. *)
Definition user_not_found : Exception :=
  AuthenticationFailed "User not found" "user_not_found".

Definition user_inactive : Exception :=
  AuthenticationFailed "User is inactive" "user_inactive".

Definition password_changed : Exception :=
  AuthenticationFailed "The user's password has been changed."
    "password_changed".

(** What the inherited [authenticate] does with the bearer credential of
    a request: [get_validated_token], then [get_user] on its result; the
    pair is what gets attached to the request. *)
Definition authenticate_credential `{Externals} (api_settings : ApiSettings)
    (db : Database) (raw_token : list Byte.byte)
    : Result (BaseUser * Token) :=
  validated_token ← get_validated_token api_settings raw_token;
  user ← get_user api_settings db validated_token;
  Return (user, validated_token).

End Authentication.

(** ** Error messages ([infrastructure/serializers/constants.py]) *)

Definition COMMON_ERROR_MESSAGES : gmap string string :=
  list_to_map [
    ("max_length",
     "{field_name} no puede tener más de {max_length} caracteres.");
    ("min_length",
     "{field_name} debe tener al menos {min_length} caracteres.");
    ("invalid", "{field_name} es inválido.");
    ("password_mismatch", "Las contraseñas no coinciden.");
    ("password_common", "Esta contraseña es demasiado común.");
    ("password_no_upper_lower",
     "La contraseña debe contener al menos una mayuscula y una minuscula.");
    ("email_in_use", "Este correo electrónico ya está en uso.")
  ].

(** ** The shelter view ([infrastructure/views/shelter.py]) *)

Module ShelterView.
Import Models.

(** The request as the view reads it. Authenticators are named by their
    class; [successful_authenticator] is [None] when none has
    authenticated the request. *)
Record Request := {
  method : string;
  data : gmap string string;
  authenticators : list string;
  successful_authenticator : option string;
}.

(** The dictionary [{"code": ..., "detail": ...}]. *)
Record Body := {
  body_code : string;
  body_detail : gmap string (list string);
}.

(** [Response(data=..., status=..., content_type=...)]; [data] is [None]
    for a response without body. *)
Record Response := {
  response_data : option Body;
  status : Z;
  content_type : option string;
}.

Definition HTTP_201_CREATED : Z := 201.
Definition HTTP_400_BAD_REQUEST : Z := 400.

(** A serializer bound to request data, after [is_valid()] has run. *)
Record Serializer := {
  is_valid : bool;
  validated_data : gmap string string;
  errors : gmap string (list string);
}.

(** [serializer_class(data=request.data)]; validators may query the
    store. *)
Definition SerializerClass : Type :=
  gmap string string -> Database -> Serializer.

(** Binding a serializer reads the store and leaves it as it is. *)
Definition bound (serializer_class : SerializerClass)
    (data : gmap string string) : DB Serializer :=
  fun db => (Return (serializer_class data db), db).

(** A use case: [application(data=..., role=...)]. *)
Definition Application : Type := gmap string string -> string -> DB unit.

(** The four class-level mappings of the view, keyed by HTTP method. *)
Record View := {
  application_mapping : gmap string Application;
  authentication_mapping : gmap string (list string);
  permission_mapping : gmap string (list string);
  serializer_mapping : gmap string SerializerClass;
}.

(** [ShelterAPIView]; the use case and the serializer class it names are
    defined in modules outside the embedded files. *)
Definition ShelterAPIView (register_user : Application)
    (ShelterSerializer : SerializerClass) : View :=
  {| application_mapping := {[ "POST" := register_user ]};
     authentication_mapping := {[ "POST" := [] ]};
     permission_mapping := {[ "POST" := [] ]};
     serializer_mapping := {[ "POST" := ShelterSerializer ]} |}.

Definition not_allowed (request : Request) : Exception :=
  ValueError ("Method " +:+ method request +:+ " not allowed").

(** [self.authentication_mapping[method]]: the [except] clause names
    [AttributeError] only, so a missing method is a [KeyError]. *)
Definition get_authenticators (self : View) (request : Request)
    : Result (list string) :=
  match authentication_mapping self !! method request with
  | Some authentication_classes => Return authentication_classes
  | None => Raise (KeyError (method request))
  end.

Definition get_permissions (self : View) (request : Request)
    : Result (list string) :=
  match permission_mapping self !! method request with
  | Some permission_classes => Return permission_classes
  | None => Raise (not_allowed request)
  end.

Definition get_serializer_class (self : View) (request : Request)
    : Result SerializerClass :=
  match serializer_mapping self !! method request with
  | Some serializer => Return serializer
  | None => Raise (not_allowed request)
  end.

Definition get_application_class (self : View) (request : Request)
    : Result Application :=
  match application_mapping self !! method request with
  | Some application_class => Return application_class
  | None => Raise (not_allowed request)
  end.

(** [permission_denied] always raises: its result type has no value. A
    list is true when it is not empty, an authenticator object is true,
    [None] is false. *)
Definition permission_denied (request : Request)
    (message code : option string) : Result Empty_set :=
  if match authenticators request with [] => false | _ :: _ => true end
     && negb (bool_decide (is_Some (successful_authenticator request)))
  then Raise (NotAuthenticated code message)
  else Raise (PermissionDenied code message).

Definition _handle_valid_request `{Externals} (self : View)
    (request : Request) (data : gmap string string) : DB Response :=
  application ← lift (get_application_class self request);
  _ ← application data UserRoles_SHELTER;
  mret {| response_data := None;
          status := HTTP_201_CREATED;
          content_type := None |}.

Definition _handle_invalid_request (errors : gmap string (list string))
    : Response :=
  {| response_data := Some {| body_code := "invalid_request_data";
                              body_detail := errors |};
     status := HTTP_400_BAD_REQUEST;
     content_type := Some "application/json" |}.

Definition post `{Externals} (self : View) (request : Request)
    : DB Response :=
  serializer_class ← lift (get_serializer_class self request);
  serializer ← bound serializer_class (data request);
  if is_valid serializer then
    _handle_valid_request self request (validated_data serializer)
  else
    mret (_handle_invalid_request (errors serializer)).

End ShelterView.

(** ** Registration: the serializer and the use case behind the view *)

Module Registration.
Import Models ShelterView.
Import CustomUserManager.

(** [COMMON_ERROR_MESSAGES["email_in_use"]] *)
Definition email_in_use : string :=
  default "" (COMMON_ERROR_MESSAGES !! "email_in_use").

(** Modelled from the spec: the serializer class [ShelterSerializer] of
    [apps.users.infrastructure.serializers], whose module is not among the
    embedded files. The field-level rules are a data-shape contract
    outside the specification, hence the parameter [field_rules], which
    maps request data to the messages of the fields it rejects; a
    duplicate email is a validation failure surfaced as a field-level
    error under ["email"], with the message of the [email_in_use] class.
    Emails are compared in the normalised form in which identities store
    them. *)
Definition ShelterSerializer `{Externals}
    (field_rules : gmap string string -> gmap string (list string))
    : SerializerClass := fun data db =>
  let errors := field_rules data in
  let errors :=
    if email_taken db (normalize_email (data !! "email")) then
      partial_alter (fun messages =>
                       Some (default [] messages ++ [email_in_use]))
        "email" errors
    else errors in
  {| is_valid := bool_decide (errors = ∅);
     validated_data := data;
     errors := errors |}.

(** Modelled from the spec: the transaction scoped to the request, which
    the specification requires around every mutation: when the body
    raises, the store is the one from before the body. *)
Definition atomic {A} (body : DB A) : DB A := fun db =>
  match body db with
  | (Return a, db') => (Return a, db')
  | (Raise e, _) => (Raise e, db)
  end.

(** The identity [create_base_user] builds from an email and a password
    alone. *)
Definition new_identity `{Externals} (env : Draw) (address password : option string)
    : BaseUser :=
  {| Models.uuid := Some (uuid4 env); email := normalize_email address;
     password := make_password password;
     is_active := true; is_staff := false; is_superuser := false;
     last_login := None; date_joined := Some (now env) |}.

(** The role profile of a shelter, from the validated data. *)
Definition shelter_profile (user : BaseUser) (data : gmap string string)
    : Shelter :=
  {| base_user := default "" (uuid user);
     shelter_name := default "" (data !! "shelter_name");
     shelter_address := default "" (data !! "shelter_address");
     shelter_phone_number := default "" (data !! "shelter_phone_number");
     shelter_responsible := default "" (data !! "shelter_responsible");
     shelter_logo := default "" (data !! "shelter_logo") |}.

(** Modelled from the spec: the use case [UserUsesCases.register_user] of
    [apps.users.use_case], which is not among the embedded files:
    validated input (email, password, role-specific fields) is used to
    create a base identity plus the corresponding role profile
    transactionally, either both or neither. The identity is created
    through the manager's [create_base_user]. *)
Definition register_user `{Externals} (env : Draw) : Application :=
  fun data role =>
    atomic (
      user ← create_base_user env None (data !! "email")
               (data !! "password") ∅;
      if decide (role = UserRoles_SHELTER) then
        _ ← Shelter_create (shelter_profile user data);
        mret ()
      else
        lift (Raise (ValueError ("Role " +:+ role +:+ " has no profile")))).

End Registration.

(** ** Sample data *)

Module Fixtures.
Import Models ShelterView.

(** Primary keys of the sample rows, in the canonical spelling of a UUID,
    and one under which nothing is stored. *)
Definition root_id : string := "5d0c1a9e-7b3f-4c21-9a44-000000000000".
Definition ana_id : string := "5d0c1a9e-7b3f-4c21-9a44-000000000001".
Definition luz_id : string := "5d0c1a9e-7b3f-4c21-9a44-000000000002".
Definition otro_id : string := "5d0c1a9e-7b3f-4c21-9a44-000000000003".
Definition ghost_id : string := "5d0c1a9e-7b3f-4c21-9a44-000000000009".
Definition jwt1_id : string := "e2a4b6c8-1d3f-4a5b-8c7d-0000000000a1".
Definition jwt2_id : string := "e2a4b6c8-1d3f-4a5b-8c7d-0000000000a2".


(** The usual spellings of a UUID: 32 hexadecimal digits in either case,
    with hyphens anywhere between them. The result is the canonical
    spelling, lower case in groups of 8-4-4-4-12. (The library also accepts
    a [urn:uuid:] prefix and braces, which this stand-in does not.) *)
Definition is_hex (c : Ascii.ascii) : bool :=
  let n := Ascii.nat_of_ascii c in
  ((48 <=? n) && (n <=? 57)) || ((97 <=? n) && (n <=? 102))
  || ((65 <=? n) && (n <=? 70)).

Definition lower (c : Ascii.ascii) : Ascii.ascii :=
  let n := Ascii.nat_of_ascii c in
  if (65 <=? n) && (n <=? 90) then Ascii.ascii_of_nat (n + 32) else c.

Definition hyphen : Ascii.ascii := Ascii.ascii_of_nat 45.

Definition hyphenate (digits : list Ascii.ascii) : list Ascii.ascii :=
  take 8 digits ++ hyphen :: take 4 (drop 8 digits)
  ++ hyphen :: take 4 (drop 12 digits)
  ++ hyphen :: take 4 (drop 16 digits)
  ++ hyphen :: drop 20 digits.

Definition uuid_of_text (text : string) : option string :=
  let digits :=
    List.filter (fun c => negb (Ascii.eqb c hyphen))
      (String.list_ascii_of_string text) in
  if (length digits =? 32) && forallb is_hex digits then
    Some (String.string_of_list_ascii (hyphenate (lower <$> digits)))
  else None.

(** Stand-ins for the library functions: a fingerprint and a hasher that
    are injective, the identity as normalisation, and the parser above. *)
Definition externals : Externals :=
  {| UserRoles_SHELTER := "shelter";
     get_md5_hash_password := fun hash => "MD5(" +:+ hash +:+ ")";
     normalize_email := default "";
     make_password := fun raw => "pbkdf2$" +:+ default "" raw;
     UUIDField_to_python := uuid_of_text |}.

(** A token class that accepts exactly the raw tokens of a table of issued
    tokens and wraps the payload recorded for them; on any other raw token
    it raises [TokenError] with the text given. *)
Definition token_class_failing (name text : string)
    (issued : list (string * gmap string string)) : TokenClass :=
  {| class_token_type := name;
     construct := fun raw =>
       match (list_to_map issued : gmap string (gmap string string))
               !! String.string_of_list_byte raw with
       | Some claims => inr {| token_type := name; payload := claims |}
       | None => inl {| args0 := text |}
       end |}.

Definition token_class (name : string)
    (issued : list (string * gmap string string)) : TokenClass :=
  token_class_failing name "Token is invalid or expired" issued.

Definition claims (kind user jti fingerprint : string)
    : gmap string string :=
  list_to_map [("token_type", kind); ("user_uuid", user); ("jti", jti);
               ("hash_password", fingerprint)].

Definition AccessToken : TokenClass :=
  token_class "access"
    [("access-abc123", claims "access" ana_id "abc123" "MD5(pbkdf2$old)");
     ("access-def456", claims "access" ana_id "def456" "MD5(pbkdf2$old)");
     ("access-ghost", claims "access" ghost_id "0000ff" "MD5(pbkdf2$old)")].

Definition RefreshToken : TokenClass :=
  token_class_failing "refresh" "Token has wrong type"
    [("refresh-aaa111", claims "refresh" ana_id "aaa111" "MD5(pbkdf2$old)")].

(** The values of the [SIMPLE_JWT] block of [settings/environments/base.py]
    that the authentication class reads; [CHECK_REVOKE_TOKEN] and
    [REVOKE_TOKEN_CLAIM] are not set there and keep the library's
    defaults. *)
Definition SIMPLE_JWT : ApiSettings :=
  {| AUTH_TOKEN_CLASSES := [AccessToken];
     USER_ID_CLAIM := "user_uuid";
     CHECK_REVOKE_TOKEN := false;
     REVOKE_TOKEN_CLAIM := "hash_password" |}.

Definition both_classes (check : bool) : ApiSettings :=
  {| AUTH_TOKEN_CLASSES := [AccessToken; RefreshToken];
     USER_ID_CLAIM := "user_uuid";
     CHECK_REVOKE_TOKEN := check;
     REVOKE_TOKEN_CLAIM := "hash_password" |}.

Definition user1 (hash : string) (active : bool) : BaseUser :=
  {| uuid := Some ana_id; email := "ana@refugio.org"; password := hash;
     is_active := active; is_staff := false; is_superuser := false;
     last_login := None; date_joined := Some 1700000000%Z |}.

(** Wrappers as the access class builds them: one carrying the fingerprint
    of the hash ["pbkdf2$old"], one carrying that of ["pbkdf2$new"], one
    without revocation claim, one naming an identity that is not stored. *)
Definition old_token : Token :=
  {| token_type := "access";
     payload := claims "access" ana_id "abc123" "MD5(pbkdf2$old)" |}.

Definition fresh_token : Token :=
  {| token_type := "access";
     payload := claims "access" ana_id "fff999" "MD5(pbkdf2$new)" |}.

Definition claimless_token : Token :=
  {| token_type := "access";
     payload := list_to_map [("token_type", "access"); ("user_uuid", ana_id);
                             ("jti", "777aaa")] |}.

Definition ghost_token : Token :=
  {| token_type := "access";
     payload := claims "access" ghost_id "0000ff" "MD5(pbkdf2$old)" |}.

(** The same identity as [old_token] spelled in upper case, and a token
    whose identity claim spells no UUID. *)
Definition shouting_token : Token :=
  {| token_type := "access";
     payload := claims "access" "5D0C1A9E-7B3F-4C21-9A44-000000000001"
                  "abc123" "MD5(pbkdf2$old)" |}.

Definition malformed_token : Token :=
  {| token_type := "access";
     payload := claims "access" "not-a-uuid" "bad000" "MD5(pbkdf2$old)" |}.

Definition empty_db : Database :=
  {| base_user_table := ∅; shelter_table := ∅;
     jwt_table := ∅; jwt_blacklist_table := ∅ |}.

Definition db_with (user : BaseUser) : Database :=
  set_base_user_table empty_db {[ ana_id := user ]}.

(** A store with one active user and the records of the two access tokens
    issued to them. *)
Definition jwt_row (pk jti raw : string) : JWT :=
  {| jwt_uuid := pk; Models.content_type := 7; user_uuid := ana_id; jti := jti;
     token := raw; expires_at := 1700003600; jwt_date_joined := 1700000000 |}.

Definition db_tokens : Database :=
  {| base_user_table := {[ ana_id := user1 "pbkdf2$old" true ]};
     shelter_table := ∅;
     jwt_table := {[ jwt1_id := jwt_row jwt1_id "abc123" "access-abc123";
                     jwt2_id := jwt_row jwt2_id "def456" "access-def456" ]};
     jwt_blacklist_table := ∅ |}.


(** A registration request for a shelter. *)
Definition shelter_request (address name : string) : Request :=
  {| method := "POST";
     data := list_to_map
       [("shelter_name", name);
        ("shelter_address", "Calle 12 # 3-45");
        ("shelter_phone_number", "+573001112233");
        ("shelter_responsible", "Luz Marina");
        ("shelter_logo", "https://refugio.org/logo.png");
        ("email", address);
        ("password", "S3creta!")];
     authenticators := [];
     successful_authenticator := None |}.

(** The view with the registration use case and serializer, the field
    rules accepting everything. *)
Definition shelter_view : View :=
  ShelterAPIView
    (Registration.register_user (H := externals)
       {| uuid4 := luz_id; now := 1700000500 |})
    (Registration.ShelterSerializer (H := externals) (fun _ => ∅)).

Definition get_request : Request :=
  {| method := "GET"; data := ∅; authenticators := [];
     successful_authenticator := None |}.

End Fixtures.

(** * Properties *)

Import Models Models.CustomUserManager Authentication ShelterView Registration.

(** ** Token validation *)

Section ValidatedToken.

Lemma loop_all_fail classes raw errs messages :
  Forall2 (fun c e => construct c raw = inl e) classes errs ->
  get_validated_token_loop classes raw messages =
    Raise (InvalidToken (Some "authentication_failed")
             (DetailMessages
                (messages ++ zip_with failure_entry classes errs))).
Proof.
  intros Hall. revert messages.
  induction Hall as [|c e classes errs Hc _ IH]; intros messages; simpl.
  - by rewrite app_nil_r.
  - rewrite Hc, IH. by rewrite <- app_assoc.
Qed.

Lemma loop_first_success pre c post raw tok messages :
  Forall (fun d => exists e, construct d raw = inl e) pre ->
  construct c raw = inr tok ->
  get_validated_token_loop (pre ++ c :: post) raw messages = Return tok.
Proof.
  intros Hpre Hc. revert messages.
  induction Hpre as [|d pre [e Hd] _ IH]; intros messages; simpl.
  - by rewrite Hc.
  - rewrite Hd. apply IH.
Qed.

(** C1. [get_validated_token] tries the configured token classes in
    their declared order and returns the wrapper built by the first one
    whose constructor succeeds on the raw token, all classes before it
    having raised [TokenError]. When every class raises [TokenError] it
    raises [InvalidToken] with code [authentication_failed], and the
    detail list has exactly one entry per class, in order, the entry of a
    class being the dictionary of the class's [token_type] and of the
    message ([e.args[0]]) of the [TokenError] that this class raised. *)
Theorem get_validated_token_first_success_or_all_failures
    (api_settings : ApiSettings) (raw_token : list Byte.byte) :
  (forall pre AuthToken post validated,
      AUTH_TOKEN_CLASSES api_settings = pre ++ AuthToken :: post ->
      Forall (fun c => exists e, construct c raw_token = inl e) pre ->
      construct AuthToken raw_token = inr validated ->
      get_validated_token api_settings raw_token = Return validated)
  /\ (forall errs,
      Forall2 (fun c e => construct c raw_token = inl e)
        (AUTH_TOKEN_CLASSES api_settings) errs ->
      exists messages,
        get_validated_token api_settings raw_token =
          Raise (InvalidToken (Some "authentication_failed")
                   (DetailMessages messages))
        /\ length messages = length (AUTH_TOKEN_CLASSES api_settings)
        /\ messages =
             zip_with
               (fun AuthToken e =>
                  {| failure_token_type := class_token_type AuthToken;
                     failure_message := args0 e |})
               (AUTH_TOKEN_CLASSES api_settings) errs).
Proof.
  unfold get_validated_token. split.
  - intros pre c post tok -> Hpre Hc. by apply loop_first_success.
  - intros errs Hall. eexists. split; [|split; [|reflexivity]].
    + by rewrite (loop_all_fail _ _ errs).
    + rewrite length_zip_with. apply Forall2_length in Hall. lia.
Qed.

End ValidatedToken.

Lemma get_validated_token_first_success_or_all_failures_witness :
  get_validated_token (Fixtures.both_classes false)
    (String.list_byte_of_string "refresh-aaa111")
  = Return {| token_type := "refresh";
              payload := Fixtures.claims "refresh" Fixtures.ana_id "aaa111"
                           "MD5(pbkdf2$old)" |}
  /\ exists messages,
       get_validated_token (Fixtures.both_classes false)
         (String.list_byte_of_string "garbage")
       = Raise (InvalidToken (Some "authentication_failed")
                  (DetailMessages messages))
       /\ length messages = 2
       /\ messages =
            [ {| failure_token_type := "access";
                 failure_message := "Token is invalid or expired" |};
              {| failure_token_type := "refresh";
                 failure_message := "Token has wrong type" |} ].
Proof.
  split.
  - apply (proj1 (get_validated_token_first_success_or_all_failures
                    (Fixtures.both_classes false)
                    (String.list_byte_of_string "refresh-aaa111"))
             [Fixtures.AccessToken] Fixtures.RefreshToken []).
    + reflexivity.
    + repeat constructor. eexists. vm_compute. reflexivity.
    + vm_compute. reflexivity.
  - apply (proj2 (get_validated_token_first_success_or_all_failures
                    (Fixtures.both_classes false)
                    (String.list_byte_of_string "garbage"))
             [ {| args0 := "Token is invalid or expired" |};
               {| args0 := "Token has wrong type" |} ]).
    repeat constructor; vm_compute; reflexivity.
Defined.

Example get_validated_token_second_class :
  get_validated_token (Fixtures.both_classes false)
    (String.list_byte_of_string "refresh-aaa111")
  = Return {| token_type := "refresh";
              payload := Fixtures.claims "refresh" Fixtures.ana_id "aaa111"
                           "MD5(pbkdf2$old)" |}.
Proof. vm_compute. reflexivity. Qed.

Example get_validated_token_garbage :
  get_validated_token (Fixtures.both_classes false)
    (String.list_byte_of_string "garbage")
  = Raise (InvalidToken (Some "authentication_failed")
      (DetailMessages
         [ {| failure_token_type := "access";
              failure_message := "Token is invalid or expired" |};
           {| failure_token_type := "refresh";
              failure_message := "Token has wrong type" |} ])).
Proof. vm_compute. reflexivity. Qed.


(** ** Identity resolution *)

Section ResolveUser.
Context `{Externals}.

(** [get_user] on a token whose identity claim spells a UUID, split by the
    outcome of the lookup under that UUID. *)
Lemma get_user_unfold api_settings db validated_token user_id key :
  payload validated_token !! USER_ID_CLAIM api_settings = Some user_id ->
  UUIDField_to_python user_id = Some key ->
  get_user api_settings db validated_token =
    match base_user_table db !! key with
    | None => Raise user_not_found
    | Some user =>
        if negb (is_active user) then Raise user_inactive
        else if CHECK_REVOKE_TOKEN api_settings
                && bool_decide
                     (Token_get validated_token
                        (REVOKE_TOKEN_CLAIM api_settings)
                      ≠ Some (get_md5_hash_password (password user)))
        then Raise password_changed
        else Return user
    end.
Proof.
  intros Hclaim Hkey. unfold get_user, Token_getitem, objects_get.
  rewrite Hclaim. simpl. rewrite Hkey.
  destruct (base_user_table db !! key) as [user|]; simpl; [|done].
  destruct (is_active user); simpl; [|done].
  by destruct (CHECK_REVOKE_TOKEN api_settings); simpl.
Qed.

(** [get_user] on a token whose identity claim spells no UUID: the
    [ValidationError] of the field is not among the exceptions the lookup
    is guarded against, and escapes. *)
Lemma get_user_malformed api_settings db validated_token user_id :
  payload validated_token !! USER_ID_CLAIM api_settings = Some user_id ->
  UUIDField_to_python user_id = None ->
  get_user api_settings db validated_token =
    Raise (ValidationError ("“" +:+ user_id +:+ "” is not a valid UUID.")).
Proof.
  intros Hclaim Hkey. unfold get_user, Token_getitem, objects_get.
  rewrite Hclaim. simpl. by rewrite Hkey.
Qed.

(** C7, as amended. A validated token whose identity claim spells a
    UUID under which [base_user] has no row is rejected with
    [AuthenticationFailed], code [user_not_found]. *)
Theorem get_user_unknown_identity api_settings db validated_token user_id
    key :
  payload validated_token !! USER_ID_CLAIM api_settings = Some user_id ->
  UUIDField_to_python user_id = Some key ->
  base_user_table db !! key = None ->
  get_user api_settings db validated_token =
    Raise (AuthenticationFailed "User not found" "user_not_found").
Proof.
  intros Hclaim Hkey Hrow. rewrite (get_user_unfold _ _ _ _ _ Hclaim Hkey).
  by rewrite Hrow.
Qed.

(** C8. A validated token whose subject exists with [is_active = False]
    is rejected with [AuthenticationFailed], code [user_inactive]. The
    outcome is the same whether or not [CHECK_REVOKE_TOKEN] is set and
    whatever revocation claim the token carries: the test precedes the
    revocation check, which is never reached. The subject is the row under
    the UUID that the identity claim spells. *)
Theorem get_user_inactive api_settings db validated_token user_id key user :
  payload validated_token !! USER_ID_CLAIM api_settings = Some user_id ->
  UUIDField_to_python user_id = Some key ->
  base_user_table db !! key = Some user ->
  is_active user = false ->
  get_user api_settings db validated_token =
    Raise (AuthenticationFailed "User is inactive" "user_inactive").
Proof.
  intros Hclaim Hkey Hrow Hinactive.
  rewrite (get_user_unfold _ _ _ _ _ Hclaim Hkey).
  by rewrite Hrow, Hinactive.
Qed.

(** C3. With [CHECK_REVOKE_TOKEN] set and an existing, active subject,
    [get_user] raises [AuthenticationFailed] with code [password_changed]
    exactly when the token's revocation claim differs from the fingerprint
    of the stored password hash, and returns the user otherwise. Hence a
    token that carries the fingerprint of an earlier hash, different from
    the current one, is rejected, and a token that carries the current
    fingerprint resolves. The subject is the row under the UUID that the
    identity claim spells. *)
Theorem get_user_revocation api_settings db validated_token user_id key
    user :
  CHECK_REVOKE_TOKEN api_settings = true ->
  payload validated_token !! USER_ID_CLAIM api_settings = Some user_id ->
  UUIDField_to_python user_id = Some key ->
  base_user_table db !! key = Some user ->
  is_active user = true ->
  let claim := Token_get validated_token (REVOKE_TOKEN_CLAIM api_settings) in
  let fingerprint := get_md5_hash_password (password user) in
  (get_user api_settings db validated_token = Raise password_changed
     <-> claim ≠ Some fingerprint)
  /\ (get_user api_settings db validated_token = Return user
     <-> claim = Some fingerprint)
  /\ (forall old_hash,
        claim = Some (get_md5_hash_password old_hash) ->
        get_md5_hash_password old_hash ≠ fingerprint ->
        get_user api_settings db validated_token = Raise password_changed).
Proof.
  intros Hcheck Hclaim Hkey Hrow Hactive claim fingerprint.
  rewrite (get_user_unfold _ _ _ _ _ Hclaim Hkey), Hrow, Hactive, Hcheck.
  simpl. fold claim fingerprint.
  destruct (decide (claim = Some fingerprint)) as [Heq|Hne].
  - rewrite bool_decide_eq_false_2 by (intros Hne; by apply Hne).
    repeat split; try done.
    intros old_hash Hold Hdiff. rewrite Heq in Hold. congruence.
  - rewrite bool_decide_eq_true_2 by done.
    repeat split; try done.
Qed.

(** C9. With [CHECK_REVOKE_TOKEN] set, a validated token without any
    revocation claim, whose subject exists and is active, is rejected with
    code [password_changed]: [.get] reads the missing claim as [None],
    which differs from every fingerprint. The subject is the row under the
    UUID that the identity claim spells. *)
Theorem get_user_claimless_token api_settings db validated_token user_id key
    user :
  CHECK_REVOKE_TOKEN api_settings = true ->
  payload validated_token !! USER_ID_CLAIM api_settings = Some user_id ->
  UUIDField_to_python user_id = Some key ->
  base_user_table db !! key = Some user ->
  is_active user = true ->
  payload validated_token !! REVOKE_TOKEN_CLAIM api_settings = None ->
  get_user api_settings db validated_token =
    Raise (AuthenticationFailed "The user's password has been changed."
             "password_changed").
Proof.
  intros Hcheck Hclaim Hkey Hrow Hactive Habsent.
  rewrite (get_user_unfold _ _ _ _ _ Hclaim Hkey), Hrow, Hactive, Hcheck.
  simpl. unfold Token_get. rewrite Habsent. by rewrite bool_decide_eq_true_2.
Qed.

End ResolveUser.


Lemma get_user_unknown_identity_witness :
  get_user (H := Fixtures.externals) Fixtures.SIMPLE_JWT
    (Fixtures.db_with (Fixtures.user1 "pbkdf2$old" true)) Fixtures.ghost_token
  = Raise (AuthenticationFailed "User not found" "user_not_found").
Proof.
  apply (get_user_unknown_identity (H := Fixtures.externals)
           Fixtures.SIMPLE_JWT _ Fixtures.ghost_token Fixtures.ghost_id
           Fixtures.ghost_id);
    vm_compute; reflexivity.
Defined.

(** A token whose identity claim spells no UUID matches no stored
    identity, yet [get_user] does not answer [user_not_found]: the
    [ValidationError] of the field escapes. *)
Lemma get_user_malformed_identity_escapes :
  payload Fixtures.malformed_token !! USER_ID_CLAIM Fixtures.SIMPLE_JWT
    = Some "not-a-uuid"
  /\ base_user_table Fixtures.db_tokens !! "not-a-uuid" = None
  /\ map_Forall (fun key _ => key ≠ "not-a-uuid")
       (base_user_table Fixtures.db_tokens)
  /\ get_user (H := Fixtures.externals) Fixtures.SIMPLE_JWT
       Fixtures.db_tokens Fixtures.malformed_token
     = Raise (ValidationError "“not-a-uuid” is not a valid UUID.")
  /\ get_user (H := Fixtures.externals) Fixtures.SIMPLE_JWT
       Fixtures.db_tokens Fixtures.malformed_token
     ≠ Raise (AuthenticationFailed "User not found" "user_not_found").
Proof.
  split; [vm_compute; reflexivity|].
  split; [vm_compute; reflexivity|].
  split.
  - intros key row Hrow. simpl in Hrow.
    apply lookup_singleton_Some in Hrow as [<- _]. discriminate.
  - assert (get_user (H := Fixtures.externals) Fixtures.SIMPLE_JWT
              Fixtures.db_tokens Fixtures.malformed_token
            = Raise (ValidationError "“not-a-uuid” is not a valid UUID."))
      as Hraise by (vm_compute; reflexivity).
    split; [exact Hraise|]. rewrite Hraise. discriminate.
Qed.

(** The same user under another spelling of the stored key. *)
Example get_user_upper_case_spelling :
  get_user (H := Fixtures.externals) Fixtures.SIMPLE_JWT Fixtures.db_tokens
    Fixtures.shouting_token
  = Return (Fixtures.user1 "pbkdf2$old" true).
Proof. vm_compute. reflexivity. Qed.

Lemma get_user_inactive_witness :
  get_user (H := Fixtures.externals) (Fixtures.both_classes true)
    (Fixtures.db_with (Fixtures.user1 "pbkdf2$new" false)) Fixtures.old_token
  = Raise (AuthenticationFailed "User is inactive" "user_inactive")
  /\ get_user (H := Fixtures.externals) (Fixtures.both_classes false)
       (Fixtures.db_with (Fixtures.user1 "pbkdf2$new" false))
       Fixtures.fresh_token
     = Raise (AuthenticationFailed "User is inactive" "user_inactive").
Proof.
  split.
  - apply (get_user_inactive (H := Fixtures.externals)
             (Fixtures.both_classes true) _ Fixtures.old_token
             Fixtures.ana_id Fixtures.ana_id
             (Fixtures.user1 "pbkdf2$new" false));
      vm_compute; reflexivity.
  - apply (get_user_inactive (H := Fixtures.externals)
             (Fixtures.both_classes false) _ Fixtures.fresh_token
             Fixtures.ana_id Fixtures.ana_id
             (Fixtures.user1 "pbkdf2$new" false));
      vm_compute; reflexivity.
Defined.

Lemma get_user_revocation_witness :
  get_user (H := Fixtures.externals) (Fixtures.both_classes true)
    (Fixtures.db_with (Fixtures.user1 "pbkdf2$new" true)) Fixtures.old_token
  = Raise password_changed.
Proof.
  apply (get_user_revocation (H := Fixtures.externals)
           (Fixtures.both_classes true)
           (Fixtures.db_with (Fixtures.user1 "pbkdf2$new" true))
           Fixtures.old_token Fixtures.ana_id Fixtures.ana_id
           (Fixtures.user1 "pbkdf2$new" true)
           eq_refl eq_refl eq_refl eq_refl eq_refl).
  vm_compute. discriminate.
Defined.

Example get_user_fresh_token :
  get_user (H := Fixtures.externals) (Fixtures.both_classes true)
    (Fixtures.db_with (Fixtures.user1 "pbkdf2$new" true)) Fixtures.fresh_token
  = Return (Fixtures.user1 "pbkdf2$new" true).
Proof. vm_compute. reflexivity. Qed.

Lemma get_user_claimless_token_witness :
  get_user (H := Fixtures.externals) (Fixtures.both_classes true)
    (Fixtures.db_with (Fixtures.user1 "pbkdf2$new" true))
    Fixtures.claimless_token
  = Raise (AuthenticationFailed "The user's password has been changed."
             "password_changed").
Proof.
  apply (get_user_claimless_token (H := Fixtures.externals)
           (Fixtures.both_classes true) _ Fixtures.claimless_token
           Fixtures.ana_id Fixtures.ana_id
           (Fixtures.user1 "pbkdf2$new" true));
    vm_compute; reflexivity.
Defined.

(** ** The shelter view *)

(** C6. [permission_denied] raises [NotAuthenticated] exactly when the
    request has at least one authenticator and none of them succeeded, and
    raises [PermissionDenied] in every other case: no authenticator at all,
    or a successful one. It never returns. *)
Theorem permission_denied_kind (request : Request)
    (message code : option string) :
  (permission_denied request message code
     = Raise (NotAuthenticated code message)
   <-> authenticators request ≠ []
       /\ successful_authenticator request = None)
  /\ (permission_denied request message code
        = Raise (PermissionDenied code message)
      <-> authenticators request = []
          \/ is_Some (successful_authenticator request)).
Proof.
  unfold permission_denied.
  destruct (authenticators request) as [|a l];
    destruct (successful_authenticator request) as [s|]; simpl;
    rewrite ?is_Some_alt; intuition congruence.
Qed.

Example permission_denied_anonymous :
  permission_denied
    {| method := "GET"; data := ∅;
       authenticators := ["JWTAuthentication"; "SessionAuthentication"];
       successful_authenticator := None |} None None
  = Raise (NotAuthenticated None None).
Proof. reflexivity. Qed.

Example permission_denied_no_authenticators :
  permission_denied
    {| method := "POST"; data := ∅; authenticators := [];
       successful_authenticator := None |} None None
  = Raise (PermissionDenied None None).
Proof. reflexivity. Qed.

Section Post.
Context `{Externals}.

Lemma post_unfold register_user ShelterSerializer request db :
  method request = "POST" ->
  post (ShelterAPIView register_user ShelterSerializer) request db =
    let serializer := ShelterSerializer (data request) db in
    if is_valid serializer then
      match register_user (validated_data serializer) UserRoles_SHELTER db with
      | (Return _, db') =>
          (Return {| response_data := None; status := 201;
                     content_type := None |}, db')
      | (Raise e, db') => (Raise e, db')
      end
    else (Return (_handle_invalid_request (errors serializer)), db).
Proof.
  intros Hmethod.
  unfold post, get_serializer_class, _handle_valid_request,
    get_application_class, ShelterAPIView, bound, lift, mbind, DB_bind.
  simpl. rewrite Hmethod, !lookup_singleton_eq. simpl.
  destruct (is_valid (ShelterSerializer (data request) db)); [|done].
  by destruct (register_user _ _ db) as [[[]|e] db'].
Qed.


End Post.

(** ** The user manager *)

Section Manager.
Context `{Externals}.

Lemma setdefault_absent key value d :
  d !! key = None -> setdefault key value d = <[key := value]> d.
Proof. intros Hd. unfold setdefault. by rewrite Hd. Qed.

Lemma setdefault_present key value d old :
  d !! key = Some old -> setdefault key value d = d.
Proof. intros Hd. unfold setdefault. by rewrite Hd. Qed.

(** The constructor on keywords that name none of the three flags: the
    flags take the defaults of the field declarations. *)
Lemma BaseUser_init_field_defaults uuid address kwargs user :
  kwargs !! "is_staff" = None ->
  kwargs !! "is_superuser" = None ->
  kwargs !! "is_active" = None ->
  BaseUser_init uuid address kwargs = Return user ->
  dom kwargs ⊆ BaseUser_columns
  /\ exists login joined,
       datetime_column kwargs "last_login" = Return login
       /\ datetime_column kwargs "date_joined" = Return joined
       /\ user = {| Models.uuid := uuid; email := address; password := "";
                    is_active := false; is_staff := false;
                    is_superuser := false;
                    last_login := login; date_joined := joined |}.
Proof.
  intros Hstaff Hsuper Hactive. unfold BaseUser_init, bool_column.
  destruct (decide (dom kwargs ⊆ BaseUser_columns)) as [Hdom|]; [|done].
  rewrite Hstaff, Hsuper, Hactive. simpl.
  destruct (datetime_column kwargs "last_login") as [login|]; [|done].
  destruct (datetime_column kwargs "date_joined") as [joined|]; [|done].
  simpl. intros [= <-]. split; [done|]. by exists login, joined.
Qed.

(** The constructor on the keywords as [create_base_user] completes
    them. *)
Lemma BaseUser_init_manager_defaults uuid address kwargs user :
  kwargs !! "is_staff" = None ->
  kwargs !! "is_superuser" = None ->
  kwargs !! "is_active" = None ->
  BaseUser_init uuid address kwargs = Return user ->
  BaseUser_init uuid address
    (setdefault "is_active" (VBool true)
       (setdefault "is_superuser" (VBool false)
          (setdefault "is_staff" (VBool false) kwargs)))
  = Return {| Models.uuid := uuid; email := address; password := "";
              is_active := true; is_staff := false; is_superuser := false;
              last_login := last_login user;
              date_joined := date_joined user |}.
Proof.
  intros Hstaff Hsuper Hactive Hinit.
  destruct (BaseUser_init_field_defaults _ _ _ _ Hstaff Hsuper Hactive Hinit)
    as (Hdom & login & joined & Hlogin & Hjoined & ->).
  rewrite (setdefault_absent "is_staff") by done.
  rewrite (setdefault_absent "is_superuser") by by rewrite lookup_insert_ne.
  rewrite (setdefault_absent "is_active") by by rewrite !lookup_insert_ne.
  unfold BaseUser_init.
  rewrite decide_True.
  2:{ rewrite !dom_insert_L. repeat apply union_least; [..|exact Hdom];
      apply singleton_subseteq_l;
      match goal with
      | |- ?k ∈ ?X => apply (bool_decide_unpack (k ∈ X)); by vm_compute
      end. }
  unfold bool_column, datetime_column in *.
  rewrite lookup_insert_eq.
  rewrite (lookup_insert_ne _ "is_active" "is_staff") by done.
  rewrite (lookup_insert_ne _ "is_superuser" "is_staff") by done.
  rewrite lookup_insert_eq.
  rewrite (lookup_insert_ne _ "is_active" "is_superuser") by done.
  rewrite lookup_insert_eq.
  rewrite !(lookup_insert_ne _ _ "last_login") by done.
  rewrite !(lookup_insert_ne _ _ "date_joined") by done.
  simpl. rewrite Hlogin, Hjoined. done.
Qed.

(** [save] inserts when neither the primary key nor the email is taken. *)
Lemma save_inserts env user db :
  base_user_table db !! default (uuid4 env) (Models.uuid user) = None ->
  email_taken db (email user) = false ->
  save env user db =
    let pk := default (uuid4 env) (Models.uuid user) in
    let row := {| Models.uuid := Some pk; email := email user;
                  password := password user;
                  is_active := is_active user; is_staff := is_staff user;
                  is_superuser := is_superuser user;
                  last_login := last_login user;
                  date_joined := Some (now env) |} in
    (Return row, set_base_user_table db (<[pk := row]> (base_user_table db))).
Proof.
  intros Hpk Hemail. unfold save. rewrite Hpk, Hemail.
  rewrite decide_False; [done|]. by intros [? ?].
Qed.

Lemma _create_base_user_inserts env uuid address password kwargs user db :
  BaseUser_init uuid (normalize_email address) kwargs = Return user ->
  base_user_table db !! default (uuid4 env) uuid = None ->
  email_taken db (normalize_email address) = false ->
  Models.uuid user = uuid ->
  email user = normalize_email address ->
  _create_base_user env uuid address password kwargs db =
    let pk := default (uuid4 env) uuid in
    let row := {| Models.uuid := Some pk; email := normalize_email address;
                  password := make_password password;
                  is_active := is_active user; is_staff := is_staff user;
                  is_superuser := is_superuser user;
                  last_login := last_login user;
                  date_joined := Some (now env) |} in
    (Return row, set_base_user_table db (<[pk := row]> (base_user_table db))).
Proof.
  intros Hinit Hpk Hemail Huuid Haddress.
  unfold _create_base_user, lift, mbind, DB_bind. rewrite Hinit.
  rewrite save_inserts; simpl; rewrite ?Huuid, ?Haddress; done.
Qed.

(** C10. When [create_base_user] is called without [is_staff],
    [is_superuser] and [is_active] among its keyword arguments, and the
    insertion goes through, the saved user has [is_staff = False],
    [is_superuser = False] and [is_active = True]. The model constructor
    alone gives [is_active = False], the default of the field declaration:
    the same arguments saved without the manager's defaults yield an
    inactive row, which [get_user] rejects with [user_inactive]. *)
Theorem create_base_user_default_flags (env : Draw) (uuid : option string)
    (email password : option string) (extra_fields : gmap string FieldValue)
    (instance : BaseUser) (db : Database) :
  extra_fields !! "is_staff" = None ->
  extra_fields !! "is_superuser" = None ->
  extra_fields !! "is_active" = None ->
  BaseUser_init uuid (normalize_email email) extra_fields = Return instance ->
  base_user_table db !! default (uuid4 env) uuid = None ->
  email_taken db (normalize_email email) = false ->
  let pk := default (uuid4 env) uuid in
  (exists user db',
      create_base_user env uuid email password extra_fields db
        = (Return user, db')
      /\ base_user_table db' !! pk = Some user
      /\ is_staff user = false
      /\ is_superuser user = false
      /\ is_active user = true)
  /\ is_active instance = false
  /\ (exists user db',
      _create_base_user env uuid email password extra_fields db
        = (Return user, db')
      /\ base_user_table db' !! pk = Some user
      /\ is_active user = false
      /\ forall api_settings validated_token user_id,
           payload validated_token !! USER_ID_CLAIM api_settings
             = Some user_id ->
           UUIDField_to_python user_id = Some pk ->
           get_user api_settings db' validated_token
             = Raise (AuthenticationFailed "User is inactive"
                        "user_inactive")).
Proof.
  intros Hstaff Hsuper Hactive Hinit Hpk Hemail pk.
  pose proof (BaseUser_init_manager_defaults _ _ _ _
                Hstaff Hsuper Hactive Hinit) as Hmanager.
  destruct (BaseUser_init_field_defaults _ _ _ _ Hstaff Hsuper Hactive Hinit)
    as (_ & login & joined & _ & _ & Hinstance).
  split; [|split].
  - eexists _, _. split.
    + unfold create_base_user.
      by rewrite (_create_base_user_inserts _ _ _ _ _ _ _ Hmanager).
    + simpl. by rewrite lookup_insert_eq.
  - by rewrite Hinstance.
  - eexists _, _. split; [|split; [|split]].
    + rewrite (_create_base_user_inserts _ _ _ _ _ _ _ Hinit);
        [reflexivity|done|done|by rewrite Hinstance..].
    + simpl. by rewrite lookup_insert_eq.
    + simpl. by rewrite Hinstance.
    + intros api_settings validated_token user_id Hclaim Hkey.
      rewrite (get_user_unfold _ _ _ _ _ Hclaim Hkey). simpl.
      rewrite lookup_insert_eq. simpl. by rewrite Hinstance.
Qed.

End Manager.

Lemma create_base_user_default_flags_witness :
  exists user db',
    create_base_user (H := Fixtures.externals)
      {| uuid4 := Fixtures.luz_id; now := 1700000500 |} None
      (Some "luz@refugio.org") (Some "S3creta!") ∅
      (Fixtures.db_with (Fixtures.user1 "pbkdf2$old" true))
      = (Return user, db')
    /\ base_user_table db' !! Fixtures.luz_id = Some user
    /\ is_staff user = false
    /\ is_superuser user = false
    /\ is_active user = true.
Proof.
  refine (proj1 (create_base_user_default_flags (H := Fixtures.externals)
           {| uuid4 := Fixtures.luz_id; now := 1700000500 |} None
           (Some "luz@refugio.org") (Some "S3creta!") ∅
           {| Models.uuid := None; email := "luz@refugio.org";
              password := ""; is_active := false; is_staff := false;
              is_superuser := false; last_login := None;
              date_joined := None |}
           (Fixtures.db_with (Fixtures.user1 "pbkdf2$old" true))
           _ _ _ _ _ _)); vm_compute; reflexivity.
Defined.

Example create_base_user_saved_row :
  create_base_user (H := Fixtures.externals)
    {| uuid4 := Fixtures.luz_id; now := 1700000500 |} None
    (Some "luz@refugio.org") (Some "S3creta!") ∅ Fixtures.empty_db
  = (Return {| Models.uuid := Some Fixtures.luz_id; email := "luz@refugio.org";
               password := "pbkdf2$S3creta!"; is_active := true;
               is_staff := false; is_superuser := false;
               last_login := None; date_joined := Some 1700000500%Z |},
     set_base_user_table Fixtures.empty_db
       {[ Fixtures.luz_id :=
            {| Models.uuid := Some Fixtures.luz_id; email := "luz@refugio.org";
               password := "pbkdf2$S3creta!"; is_active := true;
               is_staff := false; is_superuser := false;
               last_login := None; date_joined := Some 1700000500%Z |} ]}).
Proof. vm_compute. reflexivity. Qed.

Example create_base_user_explicit_flag :
  fst (create_base_user (H := Fixtures.externals)
         {| uuid4 := Fixtures.luz_id; now := 1700000500 |} None
         (Some "luz@refugio.org") (Some "S3creta!")
         {[ "is_active" := VBool false ]} Fixtures.empty_db)
  = Return {| Models.uuid := Some Fixtures.luz_id; email := "luz@refugio.org";
              password := "pbkdf2$S3creta!"; is_active := false;
              is_staff := false; is_superuser := false;
              last_login := None; date_joined := Some 1700000500%Z |}.
Proof. vm_compute. reflexivity. Qed.

(** ** Registration *)

Section Register.
Context `{Externals}.

Lemma BaseUser_init_no_keywords address :
  BaseUser_init None address ∅ =
    Return {| Models.uuid := None; email := address; password := "";
              is_active := false; is_staff := false; is_superuser := false;
              last_login := None; date_joined := None |}.
Proof. vm_compute. reflexivity. Qed.

Lemma create_base_user_plain env address password db :
  create_base_user env None address password ∅ db =
    if decide (is_Some (base_user_table db !! uuid4 env)) then
      (Raise (IntegrityError "uuid"), db)
    else if email_taken db (normalize_email address) then
      (Raise (IntegrityError "email"), db)
    else
      (Return (new_identity env address password),
       set_base_user_table db
         (<[uuid4 env := new_identity env address password]>
            (base_user_table db))).
Proof.
  unfold create_base_user, _create_base_user, lift, mbind, DB_bind.
  rewrite (BaseUser_init_manager_defaults None _ ∅ _
             (lookup_empty _) (lookup_empty _) (lookup_empty _)
             (BaseUser_init_no_keywords _)).
  reflexivity.
Qed.

Lemma email_taken_insert db pk row :
  email_taken (set_base_user_table db (<[pk := row]> (base_user_table db)))
    (email row) = true.
Proof.
  unfold email_taken. apply bool_decide_eq_true_2.
  exists pk, row. simpl. by rewrite lookup_insert_eq.
Qed.

(** The use case on a store that accepts both insertions. *)
Lemma register_user_creates env data db :
  base_user_table db !! uuid4 env = None ->
  email_taken db (normalize_email (data !! "email")) = false ->
  shelter_table db !! uuid4 env = None ->
  shelter_name_taken db (default "" (data !! "shelter_name")) = false ->
  let identity := new_identity env (data !! "email") (data !! "password") in
  let profile := shelter_profile identity data in
  register_user env data UserRoles_SHELTER db =
    (Return (),
     set_shelter_table
       (set_base_user_table db (<[uuid4 env := identity]> (base_user_table db)))
       (<[uuid4 env := profile]> (shelter_table db))).
Proof.
  intros Hpk Hemail Hprofile Hname identity profile.
  unfold register_user, atomic, mbind, DB_bind.
  rewrite create_base_user_plain, Hpk, Hemail.
  rewrite decide_False by (by intros [? ?]).
  rewrite decide_True by done.
  unfold Shelter_create, shelter_name_taken in *. simpl.
  rewrite lookup_insert_eq, Hprofile.
  rewrite decide_True by eauto.
  rewrite decide_False by (by intros [? ?]).
  by rewrite Hname.
Qed.

(** The use case changes the store only when it returns: if it raises,
    neither an identity nor a profile is left behind. *)
Lemma register_user_atomic env data role db e db' :
  register_user env data role db = (Raise e, db') -> db' = db.
Proof.
  unfold register_user, atomic.
  match goal with
  | |- context [match ?body db with _ => _ end] =>
      destruct (body db) as [[[]|e'] db'']
  end; congruence.
Qed.

(** The serializer on data that passes the field rules. *)
Lemma ShelterSerializer_fresh field_rules data db :
  field_rules data = ∅ ->
  email_taken db (normalize_email (data !! "email")) = false ->
  ShelterSerializer field_rules data db =
    {| is_valid := true; validated_data := data; errors := ∅ |}.
Proof.
  intros Hrules Hemail. unfold ShelterSerializer.
  rewrite Hrules, Hemail. by rewrite bool_decide_eq_true_2.
Qed.

Lemma ShelterSerializer_duplicate field_rules data db :
  field_rules data = ∅ ->
  email_taken db (normalize_email (data !! "email")) = true ->
  ShelterSerializer field_rules data db =
    {| is_valid := false; validated_data := data;
       errors := {[ "email" := [email_in_use] ]} |}.
Proof.
  intros Hrules Hemail. unfold ShelterSerializer.
  rewrite Hrules, Hemail.
  assert (partial_alter (fun messages : option (list string) =>
                           Some (default [] messages ++ [email_in_use]))
            "email" (∅ : gmap string (list string))
          = {[ "email" := [email_in_use] ]}) as ->.
  { apply map_eq. intros k. destruct (decide (k = "email")) as [->|Hk].
    - by rewrite lookup_partial_alter_eq, lookup_singleton_eq.
    - by rewrite lookup_partial_alter_ne, lookup_singleton_ne. }
  rewrite bool_decide_eq_false_2; [done|].
  apply insert_non_empty.
Qed.

(** C4. Two registration requests with the same email, both passing the
    field rules, handled one after the other on a store where the email
    is not yet registered and that accepts the first registration: the
    first is answered [201] and leaves an identity with that email and its
    shelter profile; the second is answered [400] with code
    [invalid_request_data] and, under ["email"], the [email_in_use]
    message, and leaves the store exactly as the first left it. Whenever
    the use case raises, the store is the one from before the call:
    identity and profile are created both or neither. *)
Theorem duplicate_email_registration
    (field_rules : gmap string string -> gmap string (list string))
    (env1 env2 : Draw) (request1 request2 : Request) (db : Database) :
  method request1 = "POST" ->
  method request2 = "POST" ->
  data request1 !! "email" = data request2 !! "email" ->
  field_rules (data request1) = ∅ ->
  field_rules (data request2) = ∅ ->
  email_taken db (normalize_email (data request1 !! "email")) = false ->
  base_user_table db !! uuid4 env1 = None ->
  shelter_table db !! uuid4 env1 = None ->
  shelter_name_taken db (default "" (data request1 !! "shelter_name"))
    = false ->
  let view env :=
    ShelterAPIView (register_user env) (ShelterSerializer field_rules) in
  exists db1 identity profile,
    post (view env1) request1 db =
      (Return {| response_data := None; status := 201;
                 content_type := None |}, db1)
    /\ base_user_table db1 !! uuid4 env1 = Some identity
    /\ email identity = normalize_email (data request1 !! "email")
    /\ shelter_table db1 !! uuid4 env1 = Some profile
    /\ base_user profile = uuid4 env1
    /\ post (view env2) request2 db1 =
         (Return {| response_data :=
                      Some {| body_code := "invalid_request_data";
                              body_detail :=
                                {[ "email" :=
                                   ["Este correo electrónico ya está en uso."]
                                ]} |};
                    status := 400;
                    content_type := Some "application/json" |}, db1)
    /\ (forall env data role db0 e db',
          register_user env data role db0 = (Raise e, db') -> db' = db0).
Proof.
  intros Hm1 Hm2 Hsame Hrules1 Hrules2 Hemail Hpk Hprofile Hname view.
  subst view. cbv beta. eexists _, _, _.
  rewrite (post_unfold _ _ _ _ Hm1).
  rewrite (ShelterSerializer_fresh _ _ _ Hrules1 Hemail). simpl.
  rewrite (register_user_creates _ _ _ Hpk Hemail Hprofile Hname).
  split; [reflexivity|]. simpl.
  rewrite !lookup_insert_eq.
  split; [reflexivity|]. split; [reflexivity|].
  split; [reflexivity|]. split; [reflexivity|]. split.
  - rewrite (post_unfold _ _ _ _ Hm2).
    rewrite (ShelterSerializer_duplicate _ _ _ Hrules2); [reflexivity|].
    rewrite <- Hsame.
    apply (email_taken_insert db (uuid4 env1)
             (new_identity env1 (data request1 !! "email")
                (data request1 !! "password"))).
  - intros env data role db0 e db'. apply register_user_atomic.
Qed.

End Register.



Lemma duplicate_email_registration_witness :
  exists db1,
    post (H := Fixtures.externals)
      (ShelterAPIView
         (register_user (H := Fixtures.externals)
            {| uuid4 := Fixtures.luz_id; now := 1700000500 |})
         (ShelterSerializer (H := Fixtures.externals) (fun _ => ∅)))
      (Fixtures.shelter_request "luz@refugio.org" "Refugio Luz")
      Fixtures.db_tokens
    = (Return {| response_data := None; status := 201;
                 content_type := None |}, db1)
    /\ size (base_user_table db1) = 2
    /\ size (shelter_table db1) = 1
    /\ post (H := Fixtures.externals)
         (ShelterAPIView
            (register_user (H := Fixtures.externals)
               {| uuid4 := Fixtures.otro_id; now := 1700000900 |})
            (ShelterSerializer (H := Fixtures.externals) (fun _ => ∅)))
         (Fixtures.shelter_request "luz@refugio.org" "Otro refugio") db1
       = (Return {| response_data :=
                      Some {| body_code := "invalid_request_data";
                              body_detail :=
                                {[ "email" :=
                                   ["Este correo electrónico ya está en uso."]
                                ]} |};
                    status := 400;
                    content_type := Some "application/json" |}, db1).
Proof.
  destruct (duplicate_email_registration (H := Fixtures.externals)
              (fun _ => ∅)
              {| uuid4 := Fixtures.luz_id; now := 1700000500 |}
              {| uuid4 := Fixtures.otro_id; now := 1700000900 |}
              (Fixtures.shelter_request "luz@refugio.org" "Refugio Luz")
              (Fixtures.shelter_request "luz@refugio.org" "Otro refugio")
              Fixtures.db_tokens
              eq_refl eq_refl eq_refl eq_refl eq_refl eq_refl eq_refl eq_refl
              eq_refl)
    as (db1 & identity & profile & Hfirst & _ & _ & _ & _ & Hsecond & _).
  exists db1. split; [exact Hfirst|].
  assert (db1 = snd (post (H := Fixtures.externals)
      (ShelterAPIView
         (register_user (H := Fixtures.externals)
            {| uuid4 := Fixtures.luz_id; now := 1700000500 |})
         (ShelterSerializer (H := Fixtures.externals) (fun _ => ∅)))
      (Fixtures.shelter_request "luz@refugio.org" "Refugio Luz")
      Fixtures.db_tokens)) as Hdb1 by (by rewrite Hfirst).
  split; [|split; [|exact Hsecond]]; rewrite Hdb1; vm_compute; reflexivity.
Defined.

(** ** Blacklisted tokens *)

Section Blacklist.
Context `{Externals}.

(** Neither [get_validated_token] nor [get_user] reads the tables [jwt]
    and [jwt_blacklist]: the outcome of authentication is the same on two
    stores with the same [base_user] rows. *)
Lemma authenticate_credential_base_user api_settings db db' raw_token :
  base_user_table db = base_user_table db' ->
  authenticate_credential api_settings db raw_token
  = authenticate_credential api_settings db' raw_token.
Proof.
  intros Hrows. unfold authenticate_credential, get_user, objects_get.
  by rewrite Hrows.
Qed.

Lemma authenticate_credential_after_blacklisting api_settings db entry db'
    outcome raw_token :
  JWTBlacklist_create entry db = (outcome, db') ->
  authenticate_credential api_settings db' raw_token
  = authenticate_credential api_settings db raw_token.
Proof.
  intros Hcreate. apply authenticate_credential_base_user.
  unfold JWTBlacklist_create in Hcreate.
  repeat case_decide; by simplify_eq.
Qed.

End Blacklist.

(** C2. A blacklist entry does not make authentication reject the token
    it refers to, although the docstring of [JWTBlacklist] says the entry
    disables the token: with the settings of the repository, after the
    entry for the record of the raw token ["access-abc123"] is inserted,
    [get_validated_token] followed by [get_user] still returns the user and
    the wrapper, as it does for the user's other token. *)
Theorem blacklisted_token_still_authenticates :
  exists db',
    JWTBlacklist_create
      {| token_id := Fixtures.jwt1_id; blacklist_date_joined := 1700000100 |}
      Fixtures.db_tokens
    = (Return {| token_id := Fixtures.jwt1_id; blacklist_date_joined := 1700000100 |},
       db')
    /\ (exists row, jwt_table db' !! Fixtures.jwt1_id = Some row
                    /\ token row = "access-abc123")
    /\ is_Some (jwt_blacklist_table db' !! Fixtures.jwt1_id)
    /\ authenticate_credential (H := Fixtures.externals) Fixtures.SIMPLE_JWT
         db' (String.list_byte_of_string "access-abc123")
       = Return (Fixtures.user1 "pbkdf2$old" true, Fixtures.old_token)
    /\ authenticate_credential (H := Fixtures.externals) Fixtures.SIMPLE_JWT
         db' (String.list_byte_of_string "access-def456")
       = Return (Fixtures.user1 "pbkdf2$old" true,
                 {| token_type := "access";
                    payload := Fixtures.claims "access" Fixtures.ana_id "def456"
                                 "MD5(pbkdf2$old)" |}).
Proof.
  eexists. split; [vm_compute; reflexivity|].
  split; [eexists; split; vm_compute; reflexivity|].
  split; [vm_compute; eauto|].
  split; vm_compute; reflexivity.
Qed.

(** * Further properties of the embedded code *)

(** ** Token validation, read backwards *)

Section ValidatedTokenInversion.

Lemma loop_inversion classes raw messages :
  match get_validated_token_loop classes raw messages with
  | Return validated =>
      exists pre AuthToken post,
        classes = pre ++ AuthToken :: post
        /\ Forall (fun c => exists e, construct c raw = inl e) pre
        /\ construct AuthToken raw = inr validated
  | Raise e =>
      exists errs,
        Forall2 (fun c err => construct c raw = inl err) classes errs
        /\ e = InvalidToken (Some "authentication_failed")
                 (DetailMessages
                    (messages ++ zip_with failure_entry classes errs))
  end.
Proof.
  revert messages. induction classes as [|c classes IH]; intros messages.
  - simpl. exists []. split; [constructor|]. by rewrite app_nil_r.
  - simpl. destruct (construct c raw) as [err|validated] eqn:Hc.
    + specialize (IH (messages ++ [failure_entry c err])).
      destruct (get_validated_token_loop classes raw _) as [validated|e].
      * destruct IH as (pre & d & post & -> & Hpre & Hd).
        exists (c :: pre), d, post. split; [done|]. split; [|done].
        constructor; [by exists err|done].
      * destruct IH as (errs & Hall & ->).
        exists (err :: errs). split; [by constructor|].
        simpl. by rewrite <- app_assoc.
    + exists [], c, classes. by repeat split.
Qed.

(** X1. Whatever [get_validated_token] returns was built by one of the
    configured classes, every class before it having raised [TokenError];
    and the only exception it raises is [InvalidToken] with code
    [authentication_failed], which means that every configured class raised
    [TokenError], the detail naming the classes' token types in order. *)
Theorem get_validated_token_inversion (api_settings : ApiSettings)
    (raw_token : list Byte.byte) :
  match get_validated_token api_settings raw_token with
  | Return validated =>
      exists pre AuthToken post,
        AUTH_TOKEN_CLASSES api_settings = pre ++ AuthToken :: post
        /\ Forall (fun c => exists e, construct c raw_token = inl e) pre
        /\ construct AuthToken raw_token = inr validated
  | Raise e =>
      exists messages,
        e = InvalidToken (Some "authentication_failed")
              (DetailMessages messages)
        /\ Forall (fun c => exists err, construct c raw_token = inl err)
             (AUTH_TOKEN_CLASSES api_settings)
        /\ failure_token_type <$> messages
           = class_token_type <$> AUTH_TOKEN_CLASSES api_settings
  end.
Proof.
  unfold get_validated_token.
  pose proof (loop_inversion (AUTH_TOKEN_CLASSES api_settings) raw_token [])
    as Hloop.
  destruct (get_validated_token_loop _ _ _) as [validated|e]; [done|].
  destruct Hloop as (errs & Hall & ->). eexists. split; [reflexivity|].
  split.
  - clear -Hall. induction Hall; constructor; eauto.
  - simpl. clear -Hall. induction Hall; simpl; [done|]. by f_equal.
Qed.

(** X2. Token classes appended to the configured ones never change a
    validation that succeeds: the wrapper returned is the same. *)
Theorem get_validated_token_more_classes (api_settings wider : ApiSettings)
    (extra : list TokenClass) (raw_token : list Byte.byte) (validated : Token) :
  AUTH_TOKEN_CLASSES wider = AUTH_TOKEN_CLASSES api_settings ++ extra ->
  get_validated_token api_settings raw_token = Return validated ->
  get_validated_token wider raw_token = Return validated.
Proof.
  unfold get_validated_token. intros -> Hreturn.
  pose proof (loop_inversion (AUTH_TOKEN_CLASSES api_settings) raw_token [])
    as Hinv.
  rewrite Hreturn in Hinv.
  destruct Hinv as (pre & c & post & -> & Hpre & Hc).
  rewrite <- app_assoc. simpl. by apply loop_first_success.
Qed.

End ValidatedTokenInversion.

Lemma get_validated_token_more_classes_witness :
  get_validated_token (Fixtures.both_classes false)
    (String.list_byte_of_string "access-abc123")
  = Return Fixtures.old_token.
Proof.
  apply (get_validated_token_more_classes Fixtures.SIMPLE_JWT
           (Fixtures.both_classes false) [Fixtures.RefreshToken]);
    vm_compute; reflexivity.
Defined.

(** ** Identity resolution, read backwards *)

Section ResolveUserInversion.
Context `{Externals}.

Lemma get_user_no_claim api_settings db validated_token :
  payload validated_token !! USER_ID_CLAIM api_settings = None ->
  get_user api_settings db validated_token =
    Raise (InvalidToken None (DetailText
             "Token contained no recognizable user identification")).
Proof.
  intros Hclaim. unfold get_user, Token_getitem. by rewrite Hclaim.
Qed.

(** X3. A token without the identity claim is rejected with
    [InvalidToken] (no code, the text about the missing identification),
    before the store is consulted: the outcome is the same on every
    store and for every setting. *)
Theorem get_user_without_identity_claim api_settings db validated_token :
  payload validated_token !! USER_ID_CLAIM api_settings = None ->
  get_user api_settings db validated_token =
    Raise (InvalidToken None (DetailText
             "Token contained no recognizable user identification")).
Proof. apply get_user_no_claim. Qed.

(** X4. [get_user] only ever returns a stored, active user: the token
    carries an identity claim, the claim spells a UUID, the user is the row
    under that UUID and is active, and, when [CHECK_REVOKE_TOKEN] is set,
    the token's revocation claim equals the fingerprint of that user's
    password hash. *)
Theorem get_user_returns_stored_active_user api_settings db validated_token
    user :
  get_user api_settings db validated_token = Return user ->
  exists user_id key,
    payload validated_token !! USER_ID_CLAIM api_settings = Some user_id
    /\ UUIDField_to_python user_id = Some key
    /\ base_user_table db !! key = Some user
    /\ is_active user = true
    /\ (CHECK_REVOKE_TOKEN api_settings = true ->
        Token_get validated_token (REVOKE_TOKEN_CLAIM api_settings)
          = Some (get_md5_hash_password (password user))).
Proof.
  destruct (payload validated_token !! USER_ID_CLAIM api_settings)
    as [user_id|] eqn:Hclaim.
  2:{ by rewrite get_user_no_claim. }
  destruct (UUIDField_to_python user_id) as [key|] eqn:Hkey.
  2:{ by rewrite (get_user_malformed _ _ _ _ Hclaim Hkey). }
  rewrite (get_user_unfold _ _ _ _ _ Hclaim Hkey).
  destruct (base_user_table db !! key) as [row|] eqn:Hrow; [|done].
  destruct (is_active row) eqn:Hactive; simpl; [|done].
  destruct (CHECK_REVOKE_TOKEN api_settings); simpl.
  - case_bool_decide as Hfp; [done|]. intros [= ->].
    exists user_id, key. do 4 (split; [done|]).
    intros _. exact Hfp.
  - intros [= ->]. exists user_id, key. by do 4 (split; [done|]).
Qed.

(** X5. With [CHECK_REVOKE_TOKEN] unset, as in the settings of the
    repository, the revocation claim is not looked at: a token naming a
    stored, active user resolves to that user whatever its revocation
    claim and whatever the user's current password hash. The user named
    is the row under the UUID that the identity claim spells. *)
Theorem get_user_revocation_check_off api_settings db validated_token
    user_id key user :
  CHECK_REVOKE_TOKEN api_settings = false ->
  payload validated_token !! USER_ID_CLAIM api_settings = Some user_id ->
  UUIDField_to_python user_id = Some key ->
  base_user_table db !! key = Some user ->
  is_active user = true ->
  get_user api_settings db validated_token = Return user.
Proof.
  intros Hcheck Hclaim Hkey Hrow Hactive.
  rewrite (get_user_unfold _ _ _ _ _ Hclaim Hkey).
  by rewrite Hrow, Hactive, Hcheck.
Qed.

(** X6. Every exception of [get_user] has one of five causes: the
    identity claim is missing ([InvalidToken]); it spells no UUID, and the
    [ValidationError] of the field escapes; it spells a UUID without row
    ([user_not_found]); the row is inactive ([user_inactive]); or, with
    [CHECK_REVOKE_TOKEN] set, the revocation claim differs from the
    fingerprint of the row's password hash ([password_changed]). The
    [KeyError] of the payload and the [DoesNotExist] of the lookup never
    escape. *)
Theorem get_user_exceptions api_settings db validated_token e :
  get_user api_settings db validated_token = Raise e ->
  (payload validated_token !! USER_ID_CLAIM api_settings = None
   /\ e = InvalidToken None (DetailText
            "Token contained no recognizable user identification"))
  \/ exists user_id,
       payload validated_token !! USER_ID_CLAIM api_settings = Some user_id
       /\ ((UUIDField_to_python user_id = None
            /\ e = ValidationError
                     ("“" +:+ user_id +:+ "” is not a valid UUID."))
           \/ exists key,
                UUIDField_to_python user_id = Some key
                /\ ((base_user_table db !! key = None
                     /\ e = AuthenticationFailed "User not found"
                              "user_not_found")
                    \/ exists user,
                         base_user_table db !! key = Some user
                         /\ ((is_active user = false
                              /\ e = AuthenticationFailed "User is inactive"
                                       "user_inactive")
                             \/ (is_active user = true
                                 /\ CHECK_REVOKE_TOKEN api_settings = true
                                 /\ Token_get validated_token
                                      (REVOKE_TOKEN_CLAIM api_settings)
                                    ≠ Some (get_md5_hash_password
                                              (password user))
                                 /\ e = AuthenticationFailed
                                          "The user's password has been changed."
                                          "password_changed")))).
Proof.
  destruct (payload validated_token !! USER_ID_CLAIM api_settings)
    as [user_id|] eqn:Hclaim.
  2:{ rewrite get_user_no_claim by done. intros [= <-]. by left. }
  intros Hraise. right. exists user_id. split; [done|].
  destruct (UUIDField_to_python user_id) as [key|] eqn:Hkey.
  2:{ rewrite (get_user_malformed _ _ _ _ Hclaim Hkey) in Hraise.
      injection Hraise as <-. by left. }
  right. exists key. split; [done|].
  rewrite (get_user_unfold _ _ _ _ _ Hclaim Hkey) in Hraise.
  destruct (base_user_table db !! key) as [row|].
  2:{ injection Hraise as <-. by left. }
  right. exists row. split; [done|].
  destruct (is_active row); simpl in Hraise.
  2:{ injection Hraise as <-. by left. }
  right. destruct (CHECK_REVOKE_TOKEN api_settings); simpl in Hraise; [|done].
  case_bool_decide; [|done]. by injection Hraise as <-.
Qed.

End ResolveUserInversion.

Lemma get_user_without_identity_claim_witness :
  get_user (H := Fixtures.externals) Fixtures.SIMPLE_JWT Fixtures.db_tokens
    {| token_type := "access"; payload := {[ "jti" := "abc123" ]} |}
  = Raise (InvalidToken None (DetailText
             "Token contained no recognizable user identification")).
Proof.
  apply (get_user_without_identity_claim (H := Fixtures.externals)).
  vm_compute. reflexivity.
Defined.

Lemma get_user_returns_stored_active_user_witness :
  get_user (H := Fixtures.externals) (Fixtures.both_classes false)
    Fixtures.db_tokens Fixtures.shouting_token
  = Return (Fixtures.user1 "pbkdf2$old" true)
  /\ exists user_id key,
       payload Fixtures.shouting_token !! "user_uuid" = Some user_id
       /\ Fixtures.uuid_of_text user_id = Some key
       /\ base_user_table Fixtures.db_tokens !! key
          = Some (Fixtures.user1 "pbkdf2$old" true).
Proof.
  assert (get_user (H := Fixtures.externals) (Fixtures.both_classes false)
            Fixtures.db_tokens Fixtures.shouting_token
          = Return (Fixtures.user1 "pbkdf2$old" true)) as Hreturn
    by (vm_compute; reflexivity).
  split; [exact Hreturn|].
  destruct (get_user_returns_stored_active_user (H := Fixtures.externals)
              _ _ _ _ Hreturn)
    as (user_id & key & Hclaim & Hkey & Hrow & _).
  exists user_id, key. exact (conj Hclaim (conj Hkey Hrow)).
Defined.

Lemma get_user_revocation_check_off_witness :
  get_user (H := Fixtures.externals) Fixtures.SIMPLE_JWT
    (Fixtures.db_with (Fixtures.user1 "pbkdf2$new" true)) Fixtures.old_token
  = Return (Fixtures.user1 "pbkdf2$new" true).
Proof.
  apply (get_user_revocation_check_off (H := Fixtures.externals)
           Fixtures.SIMPLE_JWT _ Fixtures.old_token Fixtures.ana_id
           Fixtures.ana_id);
    vm_compute; reflexivity.
Defined.

Lemma get_user_exceptions_witness :
  get_user (H := Fixtures.externals) Fixtures.SIMPLE_JWT Fixtures.db_tokens
    Fixtures.malformed_token
  = Raise (ValidationError "“not-a-uuid” is not a valid UUID.")
  /\ exists user_id,
       payload Fixtures.malformed_token !! "user_uuid" = Some user_id
       /\ Fixtures.uuid_of_text user_id = None.
Proof.
  assert (get_user (H := Fixtures.externals) Fixtures.SIMPLE_JWT
            Fixtures.db_tokens Fixtures.malformed_token
          = Raise (ValidationError "“not-a-uuid” is not a valid UUID."))
    as Hraise by (vm_compute; reflexivity).
  split; [exact Hraise|].
  destruct (get_user_exceptions (H := Fixtures.externals) _ _ _ _ Hraise)
    as [[Habsent _]|(user_id & Hclaim & [[Hkey _]|(key & _ & Hrest)])].
  - vm_compute in Habsent. discriminate Habsent.
  - exists user_id. exact (conj Hclaim Hkey).
  - exfalso.
    destruct Hrest as [[_ Hexc]|(user & _ & [[_ Hexc]|(_ & _ & _ & Hexc)])];
      discriminate Hexc.
Defined.

(** ** The user manager: outcomes and invariants *)

Section ManagerOutcomes.
Context `{Externals}.

Lemma lookup_setdefault key value d key' :
  setdefault key value d !! key' =
    if decide (key = key') then Some (default value (d !! key))
    else d !! key'.
Proof.
  unfold setdefault. case_decide as Hkey.
  - subst key'. destruct (d !! key) as [old|] eqn:Hd; simpl.
    + done.
    + by rewrite lookup_insert_eq.
  - destruct (d !! key); [done|]. by rewrite lookup_insert_ne.
Qed.

Lemma bool_column_flag kwargs name fallback b :
  bool_column kwargs name fallback = Return b ->
  b = flag_or fallback (kwargs !! name).
Proof.
  unfold bool_column, flag_or.
  destruct (kwargs !! name) as [[]|]; by intros [= ->].
Qed.

(** What a successful constructor call says about the instance. *)
Lemma BaseUser_init_inv uuid address kwargs instance :
  BaseUser_init uuid address kwargs = Return instance ->
  Models.uuid instance = uuid
  /\ email instance = address
  /\ bool_column kwargs "is_active" false = Return (is_active instance)
  /\ bool_column kwargs "is_staff" false = Return (is_staff instance)
  /\ bool_column kwargs "is_superuser" false
     = Return (is_superuser instance).
Proof.
  unfold BaseUser_init. case_decide; [|done].
  destruct (bool_column kwargs "is_active" false) as [a|]; [|done].
  destruct (bool_column kwargs "is_staff" false) as [s|]; [|done].
  destruct (bool_column kwargs "is_superuser" false) as [u|]; [|done].
  simpl.
  destruct (datetime_column kwargs "last_login"); [|done].
  destruct (datetime_column kwargs "date_joined"); [|done].
  simpl. by intros [= <-].
Qed.

(** The two outcomes of [save]. *)
Lemma save_cases env user db outcome db' :
  save env user db = (outcome, db') ->
  let pk := default (uuid4 env) (Models.uuid user) in
  ((exists column, outcome = Raise (IntegrityError column)) /\ db' = db)
  \/ (exists row,
        outcome = Return row
        /\ db' = set_base_user_table db (<[pk := row]> (base_user_table db))
        /\ base_user_table db !! pk = None
        /\ email_taken db (email user) = false
        /\ Models.uuid row = Some pk
        /\ email row = email user
        /\ password row = password user
        /\ is_active row = is_active user
        /\ is_staff row = is_staff user
        /\ is_superuser row = is_superuser user
        /\ date_joined row = Some (now env)).
Proof.
  intros Hsave. cbv zeta. unfold save in Hsave. cbv zeta in Hsave.
  case_decide as Hpk.
  - left. simplify_eq. eauto.
  - destruct (email_taken db (email user)) eqn:Hemail.
    + left. simplify_eq. eauto.
    + right. simplify_eq. eexists. repeat split; try done.
      by apply eq_None_not_Some.
Qed.

(** The outcomes of [_create_base_user]: the constructor refuses the
    keywords, or [save] decides. *)
Lemma _create_base_user_cases env uuid address raw kwargs db outcome db' :
  _create_base_user env uuid address raw kwargs db = (outcome, db') ->
  let pk := default (uuid4 env) uuid in
  ((exists e, outcome = Raise e) /\ db' = db)
  \/ (exists user,
        outcome = Return user
        /\ db' = set_base_user_table db (<[pk := user]> (base_user_table db))
        /\ base_user_table db !! pk = None
        /\ email_taken db (normalize_email address) = false
        /\ Models.uuid user = Some pk
        /\ email user = normalize_email address
        /\ password user = make_password raw
        /\ bool_column kwargs "is_active" false = Return (is_active user)
        /\ bool_column kwargs "is_staff" false = Return (is_staff user)
        /\ bool_column kwargs "is_superuser" false
           = Return (is_superuser user)
        /\ date_joined user = Some (now env)).
Proof.
  unfold _create_base_user, lift, mbind, DB_bind.
  destruct (BaseUser_init uuid (normalize_email address) kwargs)
    as [instance|e] eqn:Hinit.
  2:{ intros [= <- <-]. left. eauto. }
  destruct (BaseUser_init_inv _ _ _ _ Hinit)
    as (Huuid & Haddress & Hactive & Hstaff & Hsuper).
  intros Hsave. apply save_cases in Hsave. simpl in Hsave.
  rewrite Huuid, Haddress in Hsave.
  destruct Hsave as [[[column ->] ->]|(row & -> & -> & ? & ? & ? & ? & ? & Ha
                                       & Hs & Hu & ?)].
  - left. eauto.
  - right. exists row. rewrite Ha, Hs, Hu. by repeat split.
Qed.

(** A boolean column read after [setdefault] on its own key, and on
    another key. *)
Lemma bool_column_setdefault kwargs name value fallback :
  bool_column (setdefault name (VBool value) kwargs) name fallback
  = bool_column kwargs name value.
Proof.
  unfold bool_column. rewrite lookup_setdefault, decide_True by done.
  by destruct (kwargs !! name) as [[]|].
Qed.

Lemma bool_column_setdefault_ne kwargs key value name fallback :
  key ≠ name ->
  bool_column (setdefault key value kwargs) name fallback
  = bool_column kwargs name fallback.
Proof.
  intros Hne. unfold bool_column.
  by rewrite lookup_setdefault, decide_False by done.
Qed.

(** X7. [create_base_user] only fills in the flags that are not passed:
    on the saved user each of [is_active], [is_staff] and [is_superuser] is
    the keyword argument when there is one, and [True], [False], [False]
    otherwise. *)
Theorem create_base_user_explicit_flags env uuid address raw extra_fields db
    user db' :
  create_base_user env uuid address raw extra_fields db = (Return user, db') ->
  is_active user = flag_or true (extra_fields !! "is_active")
  /\ is_staff user = flag_or false (extra_fields !! "is_staff")
  /\ is_superuser user = flag_or false (extra_fields !! "is_superuser").
Proof.
  unfold create_base_user. intros Hcreate.
  apply _create_base_user_cases in Hcreate.
  destruct Hcreate as [[[e ?] _]|(row & [= <-] & _ & _ & _ & _ & _ & _ & Ha
                                  & Hs & Hu & _)]; [done|].
  rewrite bool_column_setdefault, !bool_column_setdefault_ne in Ha by done.
  rewrite (bool_column_setdefault_ne _ "is_active"),
    (bool_column_setdefault_ne _ "is_superuser"), bool_column_setdefault
    in Hs by done.
  rewrite (bool_column_setdefault_ne _ "is_active"), bool_column_setdefault,
    (bool_column_setdefault_ne _ "is_staff") in Hu by done.
  by rewrite (bool_column_flag _ _ _ _ Ha), (bool_column_flag _ _ _ _ Hs),
    (bool_column_flag _ _ _ _ Hu).
Qed.

Lemma _create_base_user_raise env uuid address raw kwargs db e db' :
  _create_base_user env uuid address raw kwargs db = (Raise e, db') ->
  db' = db.
Proof.
  intros Hcreate. apply _create_base_user_cases in Hcreate.
  by destruct Hcreate as [[_ ->]|(row & [=] & _)].
Qed.

(** X8. A call of [create_base_user] or [create_superuser] that raises
    leaves the store exactly as it was. *)
Theorem manager_failure_keeps_store env uuid address raw extra_fields db
    e db' :
  create_base_user env uuid address raw extra_fields db = (Raise e, db')
  \/ create_superuser env uuid address raw extra_fields db = (Raise e, db') ->
  db' = db.
Proof.
  intros [Hcreate|Hcreate].
  - by apply _create_base_user_raise in Hcreate.
  - unfold create_superuser, lift in Hcreate.
    repeat case_match; try by simplify_eq.
    by apply _create_base_user_raise in Hcreate.
Qed.

(** X9. On an email that some row already carries [create_base_user]
    raises and writes nothing; called with an email and a password alone,
    on a fresh primary key, the exception is the [IntegrityError] of the
    [email] column. *)
Theorem create_base_user_duplicate_email env uuid address raw extra_fields db :
  email_taken db (normalize_email address) = true ->
  (exists e,
     create_base_user env uuid address raw extra_fields db = (Raise e, db))
  /\ (base_user_table db !! uuid4 env = None ->
      create_base_user env None address raw ∅ db
        = (Raise (IntegrityError "email"), db)).
Proof.
  intros Htaken. split.
  - destruct (create_base_user env uuid address raw extra_fields db)
      as [outcome db'] eqn:Hcreate.
    unfold create_base_user in Hcreate.
    apply _create_base_user_cases in Hcreate.
    destruct Hcreate as [[[e ->] ->]|(row & _ & _ & _ & Hfree & _)].
    + by exists e.
    + congruence.
  - intros Hpk. rewrite create_base_user_plain, Hpk, Htaken.
    rewrite decide_False; [done|]. by intros [? ?].
Qed.

Lemma email_taken_false db address k row :
  email_taken db address = false ->
  base_user_table db !! k = Some row ->
  email row ≠ address.
Proof.
  unfold email_taken. intros Hfree Hrow Hsame.
  apply bool_decide_eq_false in Hfree. apply Hfree. by exists k, row.
Qed.

Lemma _create_base_user_invariants env uuid address raw kwargs db outcome db' :
  keys_match db -> emails_unique db ->
  _create_base_user env uuid address raw kwargs db = (outcome, db') ->
  keys_match db' /\ emails_unique db'.
Proof.
  intros Hkeys Hunique Hcreate. apply _create_base_user_cases in Hcreate.
  destruct Hcreate as [[_ ->]|(user & _ & -> & Hpk & Hfree & Huuid & Hemail
                               & _)]; [done|].
  split.
  - intros k row. simpl. rewrite lookup_insert.
    case_decide as Hk; [|apply Hkeys]. intros [= <-]. by rewrite <- Hk.
  - intros k1 k2 row1 row2. simpl. rewrite !lookup_insert.
    repeat case_decide; simplify_eq; try done.
    + intros [= <-] Hrow2 Hsame. exfalso.
      apply (email_taken_false _ _ _ _ Hfree Hrow2). congruence.
    + intros Hrow1 [= <-] Hsame. exfalso.
      apply (email_taken_false _ _ _ _ Hfree Hrow1). congruence.
    + apply Hunique.
Qed.

(** X10. The manager keeps the table well-formed: if every row of
    [base_user] sits under its own [uuid] and no two rows share an email,
    the same holds after [create_base_user] and after [create_superuser],
    whatever their outcome. *)
Theorem manager_keeps_table_well_formed env uuid address raw extra_fields db
    outcome db' :
  keys_match db -> emails_unique db ->
  create_base_user env uuid address raw extra_fields db = (outcome, db')
  \/ create_superuser env uuid address raw extra_fields db = (outcome, db') ->
  keys_match db' /\ emails_unique db'.
Proof.
  intros Hkeys Hunique [Hcreate|Hcreate].
  - by apply _create_base_user_invariants in Hcreate.
  - unfold create_superuser, lift in Hcreate.
    repeat case_match; try by simplify_eq.
    by apply _create_base_user_invariants in Hcreate.
Qed.

(** X11. A successful [create_base_user] inserts exactly one row, under a
    primary key that was free (the [uuid] passed, or the one drawn from
    [uuid4] when none is), and touches nothing else: the other rows and
    the other tables are as before. The row carries the normalised email,
    the hash of the raw password and the time of the insertion. *)
Theorem create_base_user_inserts_one_row env uuid address raw extra_fields db
    user db' :
  create_base_user env uuid address raw extra_fields db = (Return user, db') ->
  let pk := default (uuid4 env) uuid in
  base_user_table db !! pk = None
  /\ base_user_table db' = <[pk := user]> (base_user_table db)
  /\ shelter_table db' = shelter_table db
  /\ jwt_table db' = jwt_table db
  /\ jwt_blacklist_table db' = jwt_blacklist_table db
  /\ Models.uuid user = Some pk
  /\ email user = normalize_email address
  /\ password user = make_password raw
  /\ date_joined user = Some (now env).
Proof.
  unfold create_base_user. intros Hcreate.
  apply _create_base_user_cases in Hcreate.
  destruct Hcreate as [[[e ?] _]|(row & [= <-] & -> & ? & _ & ? & ? & ? & _
                                  & _ & _ & ?)]; [done|].
  by repeat split.
Qed.

Lemma is_not_True_false kwargs key fallback :
  is_not_True kwargs key = false ->
  bool_column kwargs key fallback = Return true.
Proof.
  unfold is_not_True, bool_column.
  by destruct (kwargs !! key) as [[[]| |]|].
Qed.

(** X12. A user that [create_superuser] returns has [is_staff],
    [is_superuser] and [is_active] all [True], whatever keywords were
    passed. *)
Theorem create_superuser_flags env uuid address raw extra_fields db user db' :
  create_superuser env uuid address raw extra_fields db = (Return user, db') ->
  is_staff user = true /\ is_superuser user = true /\ is_active user = true.
Proof.
  unfold create_superuser, lift.
  destruct (is_not_True _ "is_staff") eqn:Hstaff; [done|].
  destruct (is_not_True _ "is_superuser") eqn:Hsuper; [done|].
  destruct (is_not_True _ "is_active") eqn:Hactive; [done|].
  intros Hcreate. apply _create_base_user_cases in Hcreate.
  destruct Hcreate as [[[e ?] _]|(row & [= <-] & _ & _ & _ & _ & _ & _ & Ha
                                  & Hs & Hu & _)]; [done|].
  rewrite (is_not_True_false _ _ false Hstaff) in Hs.
  rewrite (is_not_True_false _ _ false Hsuper) in Hu.
  rewrite (is_not_True_false _ _ false Hactive) in Ha.
  by simplify_eq.
Qed.

Lemma is_not_True_superuser_defaults extra_fields :
  let completed :=
    setdefault "is_active" (VBool true)
      (setdefault "is_superuser" (VBool true)
         (setdefault "is_staff" (VBool true) extra_fields)) in
  is_not_True completed "is_staff" = negb (passes (extra_fields !! "is_staff"))
  /\ is_not_True completed "is_superuser"
     = negb (passes (extra_fields !! "is_superuser"))
  /\ is_not_True completed "is_active"
     = negb (passes (extra_fields !! "is_active")).
Proof.
  cbv zeta. unfold is_not_True, passes. rewrite !lookup_setdefault.
  rewrite (decide_False (P := "is_active" = "is_staff")) by done.
  rewrite (decide_False (P := "is_superuser" = "is_staff")) by done.
  rewrite (decide_False (P := "is_active" = "is_superuser")) by done.
  rewrite (decide_False (P := "is_staff" = "is_superuser")) by done.
  rewrite (decide_False (P := "is_staff" = "is_active")) by done.
  rewrite (decide_False (P := "is_superuser" = "is_active")) by done.
  rewrite !decide_True by done.
  repeat split.
  - by destruct (extra_fields !! "is_staff") as [[[]| |]|].
  - by destruct (extra_fields !! "is_superuser") as [[[]| |]|].
  - by destruct (extra_fields !! "is_active") as [[[]| |]|].
Qed.

(** X13. [create_superuser] refuses a flag that is passed with a value
    other than [True], before anything is written: it raises [ValueError]
    with the message of the first offending flag in the order [is_staff],
    [is_superuser], [is_active], and the store is untouched. *)
Theorem create_superuser_rejects_flags env uuid address raw extra_fields db :
  (passes (extra_fields !! "is_staff") = false ->
   create_superuser env uuid address raw extra_fields db
     = (Raise (ValueError "Superuser must have is_staff=True."), db))
  /\ (passes (extra_fields !! "is_staff") = true ->
      passes (extra_fields !! "is_superuser") = false ->
      create_superuser env uuid address raw extra_fields db
        = (Raise (ValueError "Superuser must have is_superuser=True."), db))
  /\ (passes (extra_fields !! "is_staff") = true ->
      passes (extra_fields !! "is_superuser") = true ->
      passes (extra_fields !! "is_active") = false ->
      create_superuser env uuid address raw extra_fields db
        = (Raise (ValueError "Active user must have is_active=True."), db)).
Proof.
  destruct (is_not_True_superuser_defaults extra_fields)
    as (Hstaff & Hsuper & Hactive).
  unfold create_superuser, lift. rewrite Hstaff, Hsuper, Hactive.
  repeat split.
  - by intros ->.
  - by intros -> ->.
  - by intros -> -> ->.
Qed.

(** X14. A user created by [create_base_user] without [is_active] among
    the keywords can authenticate at once: on the store the call leaves,
    [get_user] resolves a token whose identity claim spells the new primary
    key to the saved user, provided that, when [CHECK_REVOKE_TOKEN] is set,
    the token carries the fingerprint of the hash just stored. *)
Theorem created_user_resolves env uuid address raw extra_fields db user db'
    api_settings validated_token user_id :
  create_base_user env uuid address raw extra_fields db = (Return user, db') ->
  extra_fields !! "is_active" = None ->
  payload validated_token !! USER_ID_CLAIM api_settings = Some user_id ->
  UUIDField_to_python user_id = Some (default (uuid4 env) uuid) ->
  (CHECK_REVOKE_TOKEN api_settings = true ->
   Token_get validated_token (REVOKE_TOKEN_CLAIM api_settings)
     = Some (get_md5_hash_password (make_password raw))) ->
  get_user api_settings db' validated_token = Return user.
Proof.
  unfold create_base_user. intros Hcreate Hkeyword Hclaim Hkey Hfingerprint.
  apply _create_base_user_cases in Hcreate.
  destruct Hcreate as [[[e ?] _]|(row & [= <-] & -> & _ & _ & _ & _ & Hhash
                                  & Ha & _)]; [done|].
  rewrite bool_column_setdefault, !bool_column_setdefault_ne in Ha by done.
  apply bool_column_flag in Ha. rewrite Hkeyword in Ha. simpl in Ha.
  rewrite (get_user_unfold _ _ _ _ _ Hclaim Hkey). simpl.
  rewrite lookup_insert_eq, Ha, Hhash. simpl.
  destruct (CHECK_REVOKE_TOKEN api_settings); simpl; [|done].
  rewrite bool_decide_eq_false_2; [done|].
  intros Hne. apply Hne. by apply Hfingerprint.
Qed.

End ManagerOutcomes.

Lemma create_base_user_explicit_flags_witness :
  exists user db',
    create_base_user (H := Fixtures.externals)
      {| uuid4 := Fixtures.luz_id; now := 1700000500 |} None
      (Some "luz@refugio.org") (Some "S3creta!")
      {[ "is_active" := VBool false; "is_staff" := VBool true ]}
      Fixtures.db_tokens
    = (Return user, db')
    /\ is_active user = false
    /\ is_staff user = true
    /\ is_superuser user = false.
Proof.
  eexists _, _. split; [vm_compute; reflexivity|].
  lazymatch goal with
  | |- is_active ?user = _ /\ _ =>
      assert (exists db',
                create_base_user (H := Fixtures.externals)
                  {| uuid4 := Fixtures.luz_id; now := 1700000500 |} None
                  (Some "luz@refugio.org") (Some "S3creta!")
                  {[ "is_active" := VBool false; "is_staff" := VBool true ]}
                  Fixtures.db_tokens
                = (Return user, db')) as [db' Hcreate]
        by (eexists; vm_compute; reflexivity)
  end.
  pose proof (create_base_user_explicit_flags (H := Fixtures.externals)
                _ _ _ _ _ _ _ _ Hcreate) as Hflags.
  vm_compute in Hflags. exact Hflags.
Defined.

Lemma manager_failure_keeps_store_witness :
  snd (create_superuser (H := Fixtures.externals)
         {| uuid4 := Fixtures.luz_id; now := 1700000500 |} None
         (Some "ana@refugio.org") (Some "S3creta!") ∅ Fixtures.db_tokens)
  = Fixtures.db_tokens.
Proof.
  apply (manager_failure_keeps_store (H := Fixtures.externals)
           {| uuid4 := Fixtures.luz_id; now := 1700000500 |} None
           (Some "ana@refugio.org") (Some "S3creta!") ∅ Fixtures.db_tokens
           (IntegrityError "email")).
  right. vm_compute. reflexivity.
Defined.

Lemma create_base_user_duplicate_email_witness :
  create_base_user (H := Fixtures.externals)
    {| uuid4 := Fixtures.luz_id; now := 1700000500 |} None
    (Some "ana@refugio.org") (Some "S3creta!") ∅ Fixtures.db_tokens
  = (Raise (IntegrityError "email"), Fixtures.db_tokens).
Proof.
  apply (proj2 (create_base_user_duplicate_email (H := Fixtures.externals)
                  {| uuid4 := Fixtures.luz_id; now := 1700000500 |} None
                  (Some "ana@refugio.org") (Some "S3creta!") ∅
                  Fixtures.db_tokens eq_refl)).
  vm_compute. reflexivity.
Defined.

Lemma db_tokens_well_formed :
  keys_match Fixtures.db_tokens /\ emails_unique Fixtures.db_tokens.
Proof.
  split.
  - intros k row Hrow. simpl in Hrow.
    by apply lookup_singleton_Some in Hrow as [<- <-].
  - intros k1 k2 row1 row2 Hrow1 Hrow2 _. simpl in Hrow1, Hrow2.
    apply lookup_singleton_Some in Hrow1 as [<- _].
    by apply lookup_singleton_Some in Hrow2 as [<- _].
Defined.

Lemma manager_keeps_table_well_formed_witness :
  keys_match
    (snd (create_base_user (H := Fixtures.externals)
            {| uuid4 := Fixtures.luz_id; now := 1700000500 |} None
            (Some "luz@refugio.org") (Some "S3creta!") ∅ Fixtures.db_tokens))
  /\ emails_unique
       (snd (create_base_user (H := Fixtures.externals)
               {| uuid4 := Fixtures.luz_id; now := 1700000500 |} None
               (Some "luz@refugio.org") (Some "S3creta!") ∅
               Fixtures.db_tokens)).
Proof.
  eapply (manager_keeps_table_well_formed (H := Fixtures.externals)
            {| uuid4 := Fixtures.luz_id; now := 1700000500 |} None
            (Some "luz@refugio.org") (Some "S3creta!") ∅ Fixtures.db_tokens
            _ _ (proj1 db_tokens_well_formed) (proj2 db_tokens_well_formed)).
  left. apply surjective_pairing.
Defined.

Lemma create_base_user_inserts_one_row_witness :
  exists user db',
    create_base_user (H := Fixtures.externals)
      {| uuid4 := Fixtures.luz_id; now := 1700000500 |} None
      (Some "luz@refugio.org") (Some "S3creta!") ∅ Fixtures.db_tokens
    = (Return user, db')
    /\ base_user_table db'
       = <[ Fixtures.luz_id := user ]> (base_user_table Fixtures.db_tokens)
    /\ jwt_table db' = jwt_table Fixtures.db_tokens
    /\ password user = "pbkdf2$S3creta!"
    /\ date_joined user = Some 1700000500%Z.
Proof.
  eexists _, _. split; [vm_compute; reflexivity|].
  edestruct (create_base_user_inserts_one_row (H := Fixtures.externals)
               {| uuid4 := Fixtures.luz_id; now := 1700000500 |} None
               (Some "luz@refugio.org") (Some "S3creta!") ∅
               Fixtures.db_tokens)
    as (_ & Hrows & _ & Hjwt & _ & _ & _ & Hhash & Hjoined);
    [vm_compute; reflexivity|].
  exact (conj Hrows (conj Hjwt (conj Hhash Hjoined))).
Defined.

Lemma create_superuser_flags_witness :
  exists user db',
    create_superuser (H := Fixtures.externals)
      {| uuid4 := Fixtures.root_id; now := 1700000100 |} None
      (Some "admin@refugio.org") (Some "S3creta!")
      {[ "is_staff" := VBool true ]} Fixtures.empty_db
    = (Return user, db')
    /\ is_staff user = true /\ is_superuser user = true
    /\ is_active user = true.
Proof.
  eexists _, _. split; [vm_compute; reflexivity|].
  eapply (create_superuser_flags (H := Fixtures.externals)
           {| uuid4 := Fixtures.root_id; now := 1700000100 |} None
           (Some "admin@refugio.org") (Some "S3creta!")
           {[ "is_staff" := VBool true ]} Fixtures.empty_db).
  vm_compute. reflexivity.
Defined.

Lemma create_superuser_rejects_flags_witness :
  create_superuser (H := Fixtures.externals)
    {| uuid4 := Fixtures.root_id; now := 1700000100 |} None
    (Some "admin@refugio.org") (Some "S3creta!")
    {[ "is_staff" := VBool false; "is_active" := VBool false ]}
    Fixtures.empty_db
  = (Raise (ValueError "Superuser must have is_staff=True."),
     Fixtures.empty_db)
  /\ create_superuser (H := Fixtures.externals)
       {| uuid4 := Fixtures.root_id; now := 1700000100 |} None
       (Some "admin@refugio.org") (Some "S3creta!")
       {[ "is_active" := VNone ]} Fixtures.empty_db
     = (Raise (ValueError "Active user must have is_active=True."),
        Fixtures.empty_db).
Proof.
  split.
  - apply (proj1 (create_superuser_rejects_flags (H := Fixtures.externals)
                    {| uuid4 := Fixtures.root_id; now := 1700000100 |} None
                    (Some "admin@refugio.org") (Some "S3creta!")
                    {[ "is_staff" := VBool false; "is_active" := VBool false ]}
                    Fixtures.empty_db)).
    vm_compute. reflexivity.
  - apply (proj2 (proj2 (create_superuser_rejects_flags
                    (H := Fixtures.externals)
                    {| uuid4 := Fixtures.root_id; now := 1700000100 |} None
                    (Some "admin@refugio.org") (Some "S3creta!")
                    {[ "is_active" := VNone ]} Fixtures.empty_db)));
      vm_compute; reflexivity.
Defined.

Lemma created_user_resolves_witness :
  exists user db',
    create_base_user (H := Fixtures.externals)
      {| uuid4 := Fixtures.ghost_id; now := 1700000500 |} None
      (Some "luz@refugio.org") (Some "old") ∅ Fixtures.db_tokens
    = (Return user, db')
    /\ get_user (H := Fixtures.externals) (Fixtures.both_classes true) db'
         Fixtures.ghost_token
       = Return user.
Proof.
  eexists _, _. split; [vm_compute; reflexivity|].
  apply (created_user_resolves (H := Fixtures.externals)
           {| uuid4 := Fixtures.ghost_id; now := 1700000500 |} None
           (Some "luz@refugio.org") (Some "old") ∅ Fixtures.db_tokens
           _ _ (Fixtures.both_classes true) Fixtures.ghost_token
           Fixtures.ghost_id);
    first [vm_compute; reflexivity | intros _; vm_compute; reflexivity].
Defined.

(** ** The shelter view: methods and outcomes *)

Section ViewOutcomes.
Context `{Externals}.

(** X15. [POST] is the only method the mappings of [ShelterAPIView]
    know. For [POST] the view has no authenticators and no permissions and
    hands out its serializer class and its use case; for any other method
    [get_permissions], [get_serializer_class] and [get_application_class]
    raise [ValueError] with the text [Method <method> not allowed], while
    [get_authenticators], whose [except] clause names [AttributeError],
    lets the [KeyError] of the mapping through. *)
Theorem shelter_view_methods (register_user : Application)
    (ShelterSerializer : SerializerClass) (request : Request) :
  let self := ShelterAPIView register_user ShelterSerializer in
  let refusal :=
    ValueError ("Method " +:+ method request +:+ " not allowed") in
  (method request = "POST" ->
   get_authenticators self request = Return []
   /\ get_permissions self request = Return []
   /\ get_serializer_class self request = Return ShelterSerializer
   /\ get_application_class self request = Return register_user)
  /\ (method request ≠ "POST" ->
      get_authenticators self request = Raise (KeyError (method request))
      /\ get_permissions self request = Raise refusal
      /\ get_serializer_class self request = Raise refusal
      /\ get_application_class self request = Raise refusal).
Proof.
  cbv zeta.
  unfold get_authenticators, get_permissions, get_serializer_class,
    get_application_class, not_allowed, ShelterAPIView. simpl.
  split.
  - intros ->. by rewrite !lookup_singleton_eq.
  - intros Hmethod. by rewrite !lookup_singleton_ne.
Qed.

(** The outcome of [post] on any view, by cases on its mappings and on
    the serializer. *)
Lemma post_cases (self : View) (request : Request) (db : Database) :
  post self request db =
    match serializer_mapping self !! method request with
    | None => (Raise (not_allowed request), db)
    | Some serializer_class =>
        let serializer := serializer_class (data request) db in
        if is_valid serializer then
          match application_mapping self !! method request with
          | None => (Raise (not_allowed request), db)
          | Some application =>
              match application (validated_data serializer)
                      UserRoles_SHELTER db with
              | (Return _, db') =>
                  (Return {| response_data := None; status := 201;
                             content_type := None |}, db')
              | (Raise e, db') => (Raise e, db')
              end
          end
        else (Return (_handle_invalid_request (errors serializer)), db)
    end.
Proof.
  unfold post, get_serializer_class, _handle_valid_request,
    get_application_class, bound, lift, mbind, DB_bind.
  destruct (serializer_mapping self !! method request) as [sc|]; [|done].
  simpl. destruct (is_valid (sc (data request) db)); [|done].
  destruct (application_mapping self !! method request) as [app|]; [|done].
  by destruct (app _ _ db) as [[[]|e] db'].
Qed.

(** X16. On a method without serializer class [post] raises [ValueError]
    ([Method <method> not allowed]) without touching the store; the same
    happens, after the serializer has accepted the data, on a method
    without use case. *)
Theorem post_method_not_allowed (self : View) (request : Request)
    (db : Database) :
  (serializer_mapping self !! method request = None ->
   post self request db =
     (Raise (ValueError ("Method " +:+ method request +:+ " not allowed")),
      db))
  /\ (forall serializer_class,
        serializer_mapping self !! method request = Some serializer_class ->
        is_valid (serializer_class (data request) db) = true ->
        application_mapping self !! method request = None ->
        post self request db =
          (Raise (ValueError ("Method " +:+ method request +:+ " not allowed")),
           db)).
Proof.
  rewrite post_cases. unfold SerializerClass, Application, DB in *. split.
  - by intros ->.
  - intros sc -> Hvalid ->. simpl. by rewrite Hvalid.
Qed.

(** X17. Whenever [post] answers, on any view, the answer is one of two:
    [201] without body, after the serializer of the method accepted the
    data and the use case of the method, called with the validated data
    and the shelter role, returned, the store being the one the use case
    left; or [400] with the body [{"code": "invalid_request_data",
    "detail": errors}] after the serializer refused the data, the store
    being untouched. *)
Theorem post_answers (self : View) (request : Request) (db : Database)
    (response : Response) (db' : Database) :
  post self request db = (Return response, db') ->
  exists serializer_class,
    serializer_mapping self !! method request = Some serializer_class
    /\ let serializer := serializer_class (data request) db in
       (is_valid serializer = true
        /\ response = {| response_data := None; status := 201;
                         content_type := None |}
        /\ exists application,
             application_mapping self !! method request = Some application
             /\ application (validated_data serializer) UserRoles_SHELTER db
                = (Return (), db'))
       \/ (is_valid serializer = false
           /\ response =
                {| response_data :=
                     Some {| body_code := "invalid_request_data";
                             body_detail := errors serializer |};
                   status := 400;
                   content_type := Some "application/json" |}
           /\ db' = db).
Proof.
  rewrite post_cases.
  destruct (serializer_mapping self !! method request) as [sc|]; [|done].
  simpl. intros Hpost. exists sc. split; [done|].
  destruct (is_valid (sc (data request) db)) eqn:Hvalid.
  - left. split; [done|].
    destruct (application_mapping self !! method request) as [app|]; [|done].
    destruct (app _ _ db) as [[[]|e] db''] eqn:Happ; [|done].
    simplify_eq. split; [done|]. by exists app.
  - right. by simplify_eq.
Qed.

(** X18. A denial on the registration endpoint is always reported as
    [PermissionDenied]: a [POST] request that carries the authenticators
    the view instantiates for it carries none, so [permission_denied]
    never raises [NotAuthenticated] for it. *)
Theorem registration_denial_is_permission_denied
    (register_user : Application) (ShelterSerializer : SerializerClass)
    (request : Request) (message code : option string) :
  method request = "POST" ->
  get_authenticators (ShelterAPIView register_user ShelterSerializer) request
    = Return (authenticators request) ->
  permission_denied request message code
    = Raise (PermissionDenied code message).
Proof.
  intros Hmethod. unfold get_authenticators, ShelterAPIView. simpl.
  rewrite Hmethod, lookup_singleton_eq. intros [= Hnone].
  unfold permission_denied. by rewrite <- Hnone.
Qed.

End ViewOutcomes.

Lemma shelter_view_methods_witness :
  get_authenticators Fixtures.shelter_view
    (Fixtures.shelter_request "luz@refugio.org" "Refugio Luz") = Return []
  /\ get_authenticators Fixtures.shelter_view Fixtures.get_request
     = Raise (KeyError "GET")
  /\ get_permissions Fixtures.shelter_view Fixtures.get_request
     = Raise (ValueError "Method GET not allowed").
Proof.
  pose proof (shelter_view_methods
                (Registration.register_user (H := Fixtures.externals)
                   {| uuid4 := Fixtures.luz_id; now := 1700000500 |})
                (Registration.ShelterSerializer (H := Fixtures.externals)
                   (fun _ => ∅))) as Hview.
  split; [|split].
  - apply (proj1 (Hview (Fixtures.shelter_request "luz@refugio.org"
                           "Refugio Luz"))).
    reflexivity.
  - apply (proj2 (Hview Fixtures.get_request)). discriminate.
  - apply (proj2 (Hview Fixtures.get_request)). discriminate.
Defined.

Lemma post_method_not_allowed_witness :
  post (H := Fixtures.externals) Fixtures.shelter_view Fixtures.get_request
    Fixtures.db_tokens
  = (Raise (ValueError "Method GET not allowed"), Fixtures.db_tokens).
Proof.
  apply (proj1 (post_method_not_allowed (H := Fixtures.externals)
                  Fixtures.shelter_view Fixtures.get_request
                  Fixtures.db_tokens)).
  vm_compute. reflexivity.
Defined.

Lemma post_answers_witness :
  exists serializer_class,
    serializer_mapping Fixtures.shelter_view !! "POST"
    = Some serializer_class.
Proof.
  destruct (post_answers (H := Fixtures.externals) Fixtures.shelter_view
              (Fixtures.shelter_request "ana@refugio.org" "Refugio Ana")
              Fixtures.db_tokens
              (_handle_invalid_request
                 {[ "email" := [Registration.email_in_use] ]})
              Fixtures.db_tokens)
    as (serializer_class & Hclass & _).
  - vm_compute. reflexivity.
  - exists serializer_class. exact Hclass.
Defined.

Lemma registration_denial_is_permission_denied_witness :
  permission_denied
    (Fixtures.shelter_request "luz@refugio.org" "Refugio Luz") None None
  = Raise (PermissionDenied None None).
Proof.
  apply (registration_denial_is_permission_denied
           (Registration.register_user (H := Fixtures.externals)
              {| uuid4 := Fixtures.luz_id; now := 1700000500 |})
           (Registration.ShelterSerializer (H := Fixtures.externals)
              (fun _ => ∅)));
    vm_compute; reflexivity.
Defined.
